(** * igscraper documentation servers: change detection and live reload

    A shallow embedding of the three scripts under [scripts/]:

    - [live-server.py]  (module [LiveServer]): per-file snapshot of
      modification times and a boolean reload flag;
    - [preview-docs.py] (module [PreviewDocs]): a watermark recomputed on
      every poll;
    - [serve-docs.py]   (module [ServeDocs]): a watermark kept by a
      background loop that touches [index.html].

    Modelling conventions.
    - Python [bytes] are [list byte]; Python [str] is a list of Unicode code
      points ([list N]); file names, paths and header values are [string].
    - Modification times are the numbers returned by [os.path.getmtime];
      only their order matters, they are modelled as [Z].
    - Module globals live in a state record; code that can raise runs in a
      state-and-exception monad [M] in which the state survives a raise, as
      Python globals do.
    - Handlers and the detector run one at a time (interleaving at the
      granularity of one request or one scan).
    - Console output and sleeps are recorded as events, not as text. *)

From Stdlib Require Import ZArith NArith List Lia Bool.
From Stdlib Require Import Strings.String Strings.Ascii Strings.Byte.
From stdpp Require Import base decidable option list gmap strings pretty.

Local Open Scope string_scope.
Local Open Scope list_scope.
Local Open Scope Z_scope.

(* ------------------------------------------------------------------ *)
(** ** Python string helpers *)

Module Py.

(** [s.startswith(p)] *)
Definition startswith (s p : string) : bool := String.prefix p s.

(** [s.endswith(suf)] *)
Definition endswith (s suf : string) : bool :=
  let n := String.length s in
  let m := String.length suf in
  (m <=? n)%nat && String.eqb (substring (n - m) m s) suf.

(** [c.lower()] on one ASCII character *)
Definition lower_ascii (c : ascii) : ascii :=
  let n := nat_of_ascii c in
  if ((65 <=? n) && (n <=? 90))%nat then ascii_of_nat (n + 32) else c.

(** [s.lower()] (the strings lowered in the scripts are ASCII) *)
Fixpoint lower (s : string) : string :=
  match s with
  | EmptyString => EmptyString
  | String c s' => String (lower_ascii c) (lower s')
  end.

(** [s.lstrip('/')] *)
Fixpoint lstrip_slash (s : string) : string :=
  match s with
  | String "/"%char s' => lstrip_slash s'
  | _ => s
  end.

(** [str(b)] for a bool *)
Definition str_bool (b : bool) : string := if b then "True" else "False".

(** [str(n)] for a non-negative int *)
Definition str_nat (n : nat) : string := pretty n.

(** [s.encode()] for an ASCII [str] literal *)
Definition encode_ascii (s : string) : list byte := list_byte_of_string s.

(** [os.path.join(a, b)] (posixpath) *)
Definition path_join (a b : string) : string :=
  if startswith b "/" then b
  else if String.eqb a "" || endswith a "/" then a +:+ b
  else a +:+ "/" +:+ b.

(** The final component of a path: [PurePath.name]. *)
Fixpoint path_name_from (acc s : string) : string :=
  match s with
  | EmptyString => acc
  | String "/"%char r => path_name_from "" r
  | String c r => path_name_from (acc +:+ String c EmptyString) r
  end.
Definition path_name (s : string) : string := path_name_from "" s.

(** [name.rfind('.')], as [None] when there is no dot. *)
Fixpoint rfind_dot_from (i : nat) (found : option nat) (s : string)
  : option nat :=
  match s with
  | EmptyString => found
  | String "."%char r => rfind_dot_from (S i) (Some i) r
  | String _ r => rfind_dot_from (S i) found r
  end.

(** [PurePath.suffix]: the part of the name from its last dot on, when that
    dot is neither the first nor the last character of the name. *)
Definition path_suffix (s : string) : string :=
  let name := path_name s in
  match rfind_dot_from 0 None name with
  | Some i =>
      if ((0 <? i) && (i <? String.length name - 1))%nat
      then substring i (String.length name - i) name
      else ""
  | None => ""
  end.

(** The double-quote character, for JSON bodies. *)
Definition dq : string := String (ascii_of_nat 34) EmptyString.

End Py.

(* ------------------------------------------------------------------ *)
(** ** Substring search and replacement on sequences

    [bytes.replace] and [str.replace] replace every non-overlapping
    occurrence of [old], scanning from the left; [old in s] is the
    substring test.  Both are used on [bytes] (live-server) and on [str]
    (preview-docs, serve-docs), hence the polymorphic section.  [old] is
    the non-empty closing body tag in every use. *)

Section Sequences.
Context {A : Type} `{EqDecision A}.

(** [old in s] *)
Fixpoint contains (old s : list A) : bool :=
  bool_decide (old `prefix_of` s) ||
  match s with
  | [] => false
  | _ :: s' => contains old s'
  end.

(** Number of positions of [s] at which [old] occurs. *)
Fixpoint occurrences (old s : list A) : nat :=
  ((if bool_decide (old `prefix_of` s) then 1 else 0) +
   match s with
   | [] => 0
   | _ :: s' => occurrences old s'
   end)%nat.

(** The left-to-right scan of [s.replace(old, new)]: [skip] counts the
    elements of a matched occurrence that remain to be passed over. *)
Fixpoint replace_from (old new : list A) (skip : nat) (s : list A) : list A :=
  match s with
  | [] => []
  | c :: s' =>
      match skip with
      | S k => replace_from old new k s'
      | O =>
          if bool_decide (old `prefix_of` s)
          then new ++ replace_from old new (length old - 1) s'
          else c :: replace_from old new 0 s'
      end
  end.

(** [s.replace(old, new)] *)
Definition replace (old new s : list A) : list A := replace_from old new 0 s.

(** [sep.join(pieces)] *)
Fixpoint join (sep : list A) (pieces : list (list A)) : list A :=
  match pieces with
  | [] => []
  | [p] => p
  | p :: ps => p ++ sep ++ join sep ps
  end.

(** [s] contains no occurrence of [old]. *)
Definition free_of (old s : list A) : Prop := contains old s = false.

(** A pattern whose first element does not reappear later in it cannot
    overlap itself. *)
Definition no_self_overlap (old : list A) : Prop :=
  match old with
  | [] => False
  | h :: t => h ∉ t
  end.

End Sequences.

(* ------------------------------------------------------------------ *)
(** ** Text files: UTF-8 and universal newlines

    [open(path, 'r', encoding='utf-8').read()] decodes the file strictly
    and, since [newline] is left at its default, translates ["\r\n"] and
    ["\r"] to ["\n"].  [content.encode('utf-8')] is the strict encoder. *)

Module Text.

Local Open Scope N_scope.

Definition byte_of (n : N) : byte :=
  match Byte.of_N n with Some b => b | None => "000"%byte end.

Definition is_continuation (b : byte) : bool :=
  (128 <=? Byte.to_N b) && (Byte.to_N b <? 192).

Definition low6 (b : byte) : N := Byte.to_N b - 128.

Fixpoint utf8_decode (bs : list byte) : option (list N) :=
  match bs with
  | [] => Some []
  | b0 :: r0 =>
      let n0 := Byte.to_N b0 in
      if n0 <? 128 then cons n0 <$> utf8_decode r0
      else if n0 <? 194 then None
      else if n0 <? 224 then
        match r0 with
        | b1 :: r1 =>
            if is_continuation b1
            then cons ((n0 - 192) * 64 + low6 b1) <$> utf8_decode r1
            else None
        | _ => None
        end
      else if n0 <? 240 then
        match r0 with
        | b1 :: b2 :: r2 =>
            let c := (n0 - 224) * 4096 + low6 b1 * 64 + low6 b2 in
            if is_continuation b1 && is_continuation b2 &&
               (2048 <=? c) && negb ((55296 <=? c) && (c <? 57344))
            then cons c <$> utf8_decode r2
            else None
        | _ => None
        end
      else if n0 <? 245 then
        match r0 with
        | b1 :: b2 :: b3 :: r3 =>
            let c := (n0 - 240) * 262144 + low6 b1 * 4096
                     + low6 b2 * 64 + low6 b3 in
            if is_continuation b1 && is_continuation b2 &&
               is_continuation b3 && (65536 <=? c) && (c <? 1114112)
            then cons c <$> utf8_decode r3
            else None
        | _ => None
        end
      else None
  end.

Definition utf8_encode_char (c : N) : option (list byte) :=
  if c <? 128 then Some [byte_of c]
  else if c <? 2048 then
    Some [byte_of (192 + c / 64); byte_of (128 + c mod 64)]
  else if c <? 65536 then
    if (55296 <=? c) && (c <? 57344) then None
    else Some [byte_of (224 + c / 4096); byte_of (128 + (c / 64) mod 64);
               byte_of (128 + c mod 64)]
  else if c <? 1114112 then
    Some [byte_of (240 + c / 262144); byte_of (128 + (c / 4096) mod 64);
          byte_of (128 + (c / 64) mod 64); byte_of (128 + c mod 64)]
  else None.

(** [s.encode('utf-8')]; [None] is [UnicodeEncodeError]. *)
Fixpoint utf8_encode (s : list N) : option (list byte) :=
  match s with
  | [] => Some []
  | c :: r =>
      match utf8_encode_char c, utf8_encode r with
      | Some a, Some b => Some (a ++ b)
      | _, _ => None
      end
  end.

(** Universal-newline translation of decoded text. *)
Fixpoint universal_newlines (s : list N) : list N :=
  match s with
  | [] => []
  | 13 :: 10 :: r => 10 :: universal_newlines r
  | 13 :: r => 10 :: universal_newlines r
  | c :: r => c :: universal_newlines r
  end.

(** [f.read()] on a file opened in text mode with [encoding='utf-8'];
    [None] is [UnicodeDecodeError]. *)
Definition read_text (bs : list byte) : option (list N) :=
  universal_newlines <$> utf8_decode bs.

(** An ASCII [str] literal as code points. *)
Definition str (s : string) : list N := Byte.to_N <$> list_byte_of_string s.

End Text.

(* ------------------------------------------------------------------ *)
(** ** Exceptions and the state-and-exception monad *)

Inductive exn :=
| OSError (errno : Z)
| ValueError          (* stands for any [Exception] that is not an [OSError];
                         [UnicodeDecodeError] is one *)
| SystemExit (code : Z)
| KeyboardInterrupt.

(** [except OSError] *)
Definition is_OSError (e : exn) : bool :=
  match e with OSError _ => true | _ => false end.

(** [except Exception]: [SystemExit] and [KeyboardInterrupt] derive from
    [BaseException] only. *)
Definition is_Exception (e : exn) : bool :=
  match e with OSError _ | ValueError => true | _ => false end.

(** bare [except:] *)
Definition is_BaseException (e : exn) : bool := true.

Inductive result (A : Type) :=
| Ok (a : A)
| Raise (e : exn).
Arguments Ok {A} a.
Arguments Raise {A} e.

Definition M (S A : Type) : Type := S → result A * S.

Definition ret {S A} (a : A) : M S A := λ s, (Ok a, s).

Definition bind {S A B} (m : M S A) (k : A → M S B) : M S B :=
  λ s, match m s with
       | (Ok a, s') => k a s'
       | (Raise e, s') => (Raise e, s')
       end.

Definition raise {S A} (e : exn) : M S A := λ s, (Raise e, s).
Definition get {S} : M S S := λ s, (Ok s, s).
Definition modify {S} (f : S → S) : M S unit := λ s, (Ok tt, f s).

(** [try: body  except <catches> as e: handler e] *)
Definition try_except {S A} (catches : exn → bool)
    (body : M S A) (handler : exn → M S A) : M S A :=
  λ s, match body s with
       | (Raise e, s') => if catches e then handler e s' else (Raise e, s')
       | r => r
       end.

#[global] Instance M_ret {S} : MRet (M S) := λ A, ret.
#[global] Instance M_bind {S} : MBind (M S) := λ A B k m, bind m k.

(** [for x in xs: f x] *)
Fixpoint for_each {S X} (f : X → M S unit) (xs : list X) : M S unit :=
  match xs with
  | [] => ret tt
  | x :: r => f x ;; for_each f r
  end.

Definition when {S} (b : bool) (m : M S unit) : M S unit :=
  if b then m else ret tt.

(** [for x in xs: acc = f acc x] with a local accumulator *)
Fixpoint fold_each {S X B} (f : B → X → M S B) (acc : B) (xs : list X)
  : M S B :=
  match xs with
  | [] => ret acc
  | x :: r => acc' ← f acc x; fold_each f acc' r
  end.

(** *** Running a script

    A script either leaves through [sys.exit] or an exception that nobody
    catches, or it reaches [serve_forever] and serves until interrupted. *)
Inductive outcome :=
| Exited (code : Z)
| Serving.

(** The interpreter's exit status: the argument of [sys.exit], and 1 after
    the traceback of any other exception that reaches the top level. *)
Definition exit_status (e : exn) : Z :=
  match e with
  | SystemExit code => code
  | _ => 1
  end.

Definition run_script {S} (script : M S outcome) (s : S) : outcome * S :=
  match script s with
  | (Ok o, s') => (o, s')
  | (Raise e, s') => (Exited (exit_status e), s')
  end.

(** What a script finds when it starts: whether the documentation
    directory exists, the [errno] of the [OSError] that binding the
    listening socket raises (if it does), and whether another process held
    the port. *)
Record host := {
  docs_exists : bool;
  bind_errno : option Z;
  port_busy : bool;
}.

Definition EADDRINUSE : Z := 98.

Definition errno_of (e : exn) : Z :=
  match e with OSError errno => errno | _ => 0 end.

(** Creating the server ([TCPServer(...)], [HTTPServer(...)]) binds the
    socket. *)
Definition bind_socket {S} (h : host) : M S unit :=
  match bind_errno h with
  | None => ret tt
  | Some errno => raise (OSError errno)
  end.

(* ------------------------------------------------------------------ *)
(** ** Console events *)

Inductive message :=
| Watching (directory : string)     (* "Watching for changes in: ..." *)
| FileChanged (filepath : string)   (* "File changed: ..." *)
| WatchError (e : exn)              (* "Watch error: ..." *)
| ErrorServing (path : string) (e : exn)  (* "Error serving ...: ..." *)
| DocsNotFound                      (* "Error: docs directory not found" *)
| RunFromProjectRoot                (* "Please run this script from the project root" *)
| Banner                            (* the start-up banner *)
| ServerRunning                     (* "Server running on port ..." *)
| PortInUse                         (* "Port ... is already in use!" *)
| TryDifferentPort                  (* "Try a different port: ..." *)
| ServerError (e : exn)             (* "Server error: ..." *)
| CheckingPort                      (* "Checking port ..." *)
| KilledExisting                    (* "Killed existing process on port ..." *)
| ServerStopped                     (* "Server stopped" *)
| ShuttingDown.                     (* "Shutting down server..." *)

Inductive event :=
| Print (m : message)
| Sleep (ms : nat).

(* ------------------------------------------------------------------ *)
(** ** The directory tree seen by [os.walk] *)

(** One directory listing: sub-directories and plain files, each in the
    order [os.scandir] returns them.  A directory that cannot be listed, or
    a symbolic link to a directory, makes [os.walk] yield no file below it
    and is represented by [Dir [] []]. *)
Unset Elimination Schemes.
Inductive dirtree :=
| Dir (subdirs : list (string * dirtree)) (files : list string).
Set Elimination Schemes.

(** [os.walk(top)] in top-down order, the consumer pruning [dirs] in place
    with [keep] before the walk descends.  Each yield is [(root, files)]. *)
Fixpoint walk (keep : string → bool) (top : string) (t : dirtree)
  : list (string * list string) :=
  match t with
  | Dir subdirs files =>
      (top, files) ::
      flat_map (λ entry,
                  if keep entry.1
                  then walk keep (Py.path_join top entry.1) entry.2
                  else [])
               subdirs
  end.

(** What a scan sees: the listing and the modification time of each path
    that can be stat-ed.  A path that was listed but has no entry has been
    removed in between, or cannot be stat-ed. *)
Record filesystem := {
  tree : dirtree;
  mtimes : gmap string Z;
}.

Definition ENOENT : Z := 2.

(* ------------------------------------------------------------------ *)
(** ** HTTP replies *)

(** The status line, the headers the script sends with [send_header] (in
    order; the [Server] and [Date] headers that [send_response] adds are
    left out) and the bytes written to [wfile]. *)
Record response := {
  status : nat;
  headers : list (string * string);
  body : list byte;
}.

(** What [do_GET] does with a request: answer it, or hand it to
    [SimpleHTTPRequestHandler.do_GET] with [self.path] as given. *)
Inductive reply :=
| Served (r : response)
| Delegated (path : string).

Definition header_value (name : string) (hs : list (string * string))
  : option string :=
  snd <$> List.find (λ h, String.eqb h.1 name) hs.

Definition reply_body (r : reply) : option (list byte) :=
  match r with Served resp => Some (body resp) | Delegated _ => None end.

Definition reply_header (name : string) (r : reply) : option string :=
  match r with
  | Served resp => header_value name (headers resp)
  | Delegated _ => None
  end.

#[global] Instance byte_eq_decision : EqDecision byte := byte_eq_dec.

(** [self.path == '/' or self.path.endswith('.html')]: the requests the
    scripts answer themselves from an HTML file. *)
Definition html_request (path : string) : bool :=
  String.eqb path "/" || Py.endswith path ".html".

(** The closing body tag, as [bytes] and as [str]. *)
Definition body_close : string := "</body>".
Definition body_close_bytes : list byte := Py.encode_ascii body_close.
Definition body_close_str : list N := Text.str body_close.

(* ------------------------------------------------------------------ *)
(** ** live-server.py *)

Module LiveServer.

Definition WATCH_EXTENSIONS : list string :=
  [".html"; ".css"; ".js"; ".json"; ".md"].

(** [CHECK_INTERVAL = 0.5] seconds, in milliseconds. *)
Definition CHECK_INTERVAL : nat := 500.

(** The module globals [file_mtimes] and [should_reload], and what the
    process has printed and slept so far. *)
Record state := {
  file_mtimes : gmap string Z;
  should_reload : bool;
  console : list event;
}.

Definition initial : state :=
  {| file_mtimes := ∅; should_reload := false; console := [] |}.

Definition set_should_reload (b : bool) (st : state) : state :=
  {| file_mtimes := file_mtimes st; should_reload := b;
     console := console st |}.

Definition set_file_mtime (filepath : string) (mtime : Z) (st : state)
  : state :=
  {| file_mtimes := <[filepath := mtime]> (file_mtimes st);
     should_reload := should_reload st; console := console st |}.

Definition emit (ev : event) (st : state) : state :=
  {| file_mtimes := file_mtimes st; should_reload := should_reload st;
     console := console st ++ [ev] |}.

Definition print (m : message) : M state unit := modify (emit (Print m)).
Definition sleep (ms : nat) : M state unit := modify (emit (Sleep ms)).

(** *** The request handler *)

(** What the handler reads from its surroundings:
    [SimpleHTTPRequestHandler.translate_path] and the files that can be
    opened, by translated path. *)
Record env := {
  translate_path : string → string;
  disk : gmap string (list byte);
}.

(** [open(file_path, 'rb').read()] *)
Definition read_bytes (e : env) (file_path : string)
  : M state (list byte) :=
  match disk e !! file_path with
  | Some content => ret content
  | None => raise (OSError ENOENT)
  end.

(** The headers [end_headers] adds. *)
Definition end_headers : list (string * string) :=
  [("Cache-Control", "no-store, no-cache, must-revalidate");
   ("Access-Control-Allow-Origin", "*")].

Definition reload_script : list byte := Py.encode_ascii
"
<script>
(function() {
    let reloadInterval = setInterval(async () => {
        try {
            const response = await fetch('/__live_reload_check__');
            const data = await response.json();
            if (data.reload) {
                console.log('Reloading page...');
                location.reload();
            }
        } catch (e) {
            // Server might be restarting
        }
    }, 500);
})();
</script>
</body>".

(** The replacement text is the polling script followed by the tag it
    replaces; [polling_script] is what gets inserted. *)
Definition polling_script : list byte :=
  take (length reload_script - length body_close_bytes) reload_script.

(** The [if b'</body>' in content: content = content.replace(...)] step. *)
Definition inject (content : list byte) : list byte :=
  if contains body_close_bytes content
  then replace body_close_bytes reload_script content
  else content.

Definition reload_check_path : string := "/__live_reload_check__".

Definition reload_body (flag : bool) : list byte :=
  Py.encode_ascii
    ("{" +:+ Py.dq +:+ "reload" +:+ Py.dq +:+ ": "
     +:+ Py.lower (Py.str_bool flag) +:+ "}").

Definition do_GET (e : env) (path : string) : M state reply :=
  if String.eqb path reload_check_path then
    st ← get;
    let r := {| status := 200;
                headers := ("Content-Type", "application/json")
                           :: end_headers;
                body := reload_body (should_reload st) |} in
    when (should_reload st) (modify (set_should_reload false)) ;;
    mret (Served r)
  else if html_request path then
    let path' := if String.eqb path "/" then "/index.html" else path in
    let file_path := translate_path e path' in
    try_except is_Exception
      (content ← read_bytes e file_path;
       let content := inject content in
       mret (Served {| status := 200;
                       headers := [("Content-Type", "text/html");
                                   ("Content-Length",
                                    Py.str_nat (length content))]
                                  ++ end_headers;
                       body := content |}))
      (λ exc, print (ErrorServing path' exc) ;; mret (Delegated path'))
  else mret (Delegated path).

(** *** The change detector *)

(** [not d.startswith('.') and d not in ['node_modules', '__pycache__']] *)
Definition keep_dir (d : string) : bool :=
  negb (Py.startswith d ".") &&
  negb (bool_decide (d ∈ ["node_modules"; "__pycache__"])).

(** [any(file.endswith(ext) for ext in WATCH_EXTENSIONS)] *)
Definition watched (file : string) : bool :=
  existsb (Py.endswith file) WATCH_EXTENSIONS.

(** [os.path.getmtime(filepath)] *)
Definition getmtime (fs : filesystem) (filepath : string) : M state Z :=
  match mtimes fs !! filepath with
  | Some mtime => ret mtime
  | None => raise (OSError ENOENT)
  end.

(** The body of [for file in files] for a watched file: lines 131-142. *)
Definition check_file (fs : filesystem) (filepath : string) : M state unit :=
  try_except is_OSError
    (mtime ← getmtime fs filepath;
     st ← get;
     match file_mtimes st !! filepath with
     | Some recorded =>
         when (recorded <? mtime)
              (print (FileChanged filepath) ;;
               modify (set_should_reload true))
     | None => mret tt
     end ;;
     modify (set_file_mtime filepath mtime))
    (λ _, mret tt).

(** The [for root, dirs, files in os.walk(directory)] loop: lines 124-142. *)
Definition scan (directory : string) (fs : filesystem) : M state unit :=
  for_each
    (λ yielded : string * list string,
       let (root, files) := yielded in
       for_each
         (λ file, when (watched file) (check_file fs (Py.path_join root file)))
         files)
    (walk keep_dir directory (tree fs)).

(** One turn of [while True]: the [try] around a loop body and its
    [except Exception] handler (lines 123, 145-147). *)
Definition guarded (loop_body : M state unit) : M state unit :=
  try_except is_Exception loop_body
    (λ exc, print (WatchError exc) ;; sleep 1000).

(** One detector cycle: lines 123-147 on the file system as it is during
    this turn. *)
Definition cycle (directory : string) (fs : filesystem) : M state unit :=
  guarded (scan directory fs ;; sleep CHECK_INTERVAL).

(** [watch_files(directory)] over the file systems of its first turns. *)
Definition watch_files (directory : string) (turns : list filesystem)
  : M state unit :=
  print (Watching directory) ;;
  for_each (cycle directory) turns.

(** *** Start-up: [main()] *)

Definition main (h : host) : M state outcome :=
  when (negb (docs_exists h))
       (print DocsNotFound ;;
        print RunFromProjectRoot ;;
        raise (SystemExit 1)) ;;
  print Banner ;;
  try_except is_OSError
    (bind_socket h ;;
     print ServerRunning ;;
     mret Serving)
    (λ exc,
       (if errno_of exc =? EADDRINUSE
        then print PortInUse ;; print TryDifferentPort
        else print (ServerError exc)) ;;
       raise (SystemExit 1)).

End LiveServer.

(* ------------------------------------------------------------------ *)
(** ** preview-docs.py *)

Module PreviewDocs.

(** The script has no globals of its own; its state is what it printed
    and slept. *)
Record state := {
  console : list event;
}.

Definition initial : state := {| console := [] |}.

Definition emit (ev : event) (st : state) : state :=
  {| console := console st ++ [ev] |}.

Definition print (m : message) : M state unit := modify (emit (Print m)).
Definition sleep (ms : nat) : M state unit := modify (emit (Sleep ms)).

(** What the handler reads: the files below [DOCS_DIR] by relative path,
    the tree and modification times [os.walk] and [stat] see, the path
    [DOCS_DIR] itself, and how an f-string renders a modification time. *)
Record env := {
  docs : gmap string (list byte);
  fs : filesystem;
  DOCS_DIR : string;
  format_mtime : Z → string;
}.

Definition end_headers : list (string * string) :=
  [("Cache-Control", "no-store, no-cache, must-revalidate");
   ("Access-Control-Allow-Origin", "*")].

Definition reload_script : list N := Text.str
"
<script>
(function() {
    let lastModified = null;
    
    async function checkForChanges() {
        try {
            const response = await fetch('/_check_reload');
            const data = await response.json();
            
            if (lastModified && data.modified !== lastModified) {
                console.log('Changes detected, reloading...');
                window.location.reload();
            }
            lastModified = data.modified;
        } catch (e) {
            // Server might be restarting
        }
    }
    
    // Check every 500ms
    setInterval(checkForChanges, 500);
    
    // Also listen for focus to reload immediately when switching back
    window.addEventListener('focus', checkForChanges);
})();
</script>
".

(** [content.replace('</body>', reload_script + '</body>')] *)
Definition inject (content : list N) : list N :=
  replace body_close_str (reload_script ++ body_close_str) content.

(** [open(file_path, 'r', encoding='utf-8').read()] for a file that
    exists. *)
Definition read_text (e : env) (rel : string) : M state (list N) :=
  match docs e !! rel with
  | Some bs =>
      match Text.read_text bs with
      | Some content => ret content
      | None => raise ValueError
      end
  | None => raise (OSError ENOENT)
  end.

(** [content.encode('utf-8')] *)
Definition encode (content : list N) : M state (list byte) :=
  match Text.utf8_encode content with
  | Some bs => ret bs
  | None => raise ValueError
  end.

(** [file_path.stat().st_mtime] *)
Definition stat_mtime (e : env) (file_path : string) : M state Z :=
  match mtimes (fs e) !! file_path with
  | Some mtime => ret mtime
  | None => raise (OSError ENOENT)
  end.

Definition keep_dir (d : string) : bool := negb (Py.startswith d ".").

(** [get_last_modified_time()] *)
Definition get_last_modified_time (e : env) : M state Z :=
  fold_each
    (λ latest (yielded : string * list string),
       let (root, files) := yielded in
       fold_each
         (λ latest file,
            if negb (Py.startswith file ".") then
              mtime ← stat_mtime e (Py.path_join root file);
              mret (Z.max latest mtime)
            else mret latest)
         latest files)
    0 (walk keep_dir (DOCS_DIR e) (tree (fs e))).

Definition check_reload_path : string := "/_check_reload".

(** [self.path.lstrip('/') or 'index.html'] *)
Definition relative (path : string) : string :=
  let rel := Py.lstrip_slash path in
  if String.eqb rel "" then "index.html" else rel.

(** [file_path.exists() and file_path.suffix == '.html'] *)
Definition is_html_file (e : env) (rel : string) : bool :=
  bool_decide (is_Some (docs e !! rel)) &&
  String.eqb (Py.path_suffix rel) ".html".

Definition do_GET (e : env) (path : string) : M state reply :=
  if html_request path && is_html_file e (relative path)
  then
    content ← read_text e (relative path);
    let content := inject content in
    encoded ← encode content;
    mret (Served {| status := 200;
                    headers := [("Content-Type", "text/html; charset=utf-8");
                                ("Content-Length",
                                 Py.str_nat (length encoded))]
                               ++ end_headers;
                    body := encoded |})
  else if String.eqb path check_reload_path then
    last_modified ← get_last_modified_time e;
    let response :=
      "{" +:+ Py.dq +:+ "modified" +:+ Py.dq +:+ ": "
      +:+ format_mtime e last_modified +:+ "}" in
    mret (Served {| status := 200;
                    headers := [("Content-Type", "application/json");
                                ("Content-Length",
                                 Py.str_nat (String.length response))]
                               ++ end_headers;
                    body := Py.encode_ascii response |})
  else mret (Delegated path).

(** [kill_existing_server()] *)
Definition kill_existing_server (h : host) : M state unit :=
  when (port_busy h) (print KilledExisting ;; sleep 1000).

(** [main()] *)
Definition main (h : host) : M state outcome :=
  kill_existing_server h ;;
  bind_socket h ;;
  print Banner ;;
  mret Serving.

(** The [if __name__ == '__main__'] block. *)
Definition script (h : host) : M state outcome :=
  when (negb (docs_exists h))
       (print DocsNotFound ;; raise (SystemExit 1)) ;;
  main h.

End PreviewDocs.

(* ------------------------------------------------------------------ *)
(** ** serve-docs.py *)

Module ServeDocs.

(** The global [last_check_time], the modification times on disk (the
    watcher changes them with [os.utime]) and the console. *)
Record state := {
  last_check_time : Z;
  disk_mtimes : gmap string Z;
  console : list event;
}.

Definition set_last_check_time (t : Z) (st : state) : state :=
  {| last_check_time := t; disk_mtimes := disk_mtimes st;
     console := console st |}.

Definition touch (file_path : string) (now : Z) (st : state) : state :=
  {| last_check_time := last_check_time st;
     disk_mtimes := <[file_path := now]> (disk_mtimes st);
     console := console st |}.

Definition emit (ev : event) (st : state) : state :=
  {| last_check_time := last_check_time st; disk_mtimes := disk_mtimes st;
     console := console st ++ [ev] |}.

Definition print (m : message) : M state unit := modify (emit (Print m)).
Definition sleep (ms : nat) : M state unit := modify (emit (Sleep ms)).

(** What the handler reads: the files below [DOCS_DIR] by relative path and
    the formatted current time. *)
Record env := {
  docs : gmap string (list byte);
  http_date : string;
}.

Definition end_headers : list (string * string) :=
  [("Cache-Control", "no-store, no-cache, must-revalidate");
   ("Expires", "0")].

Definition reload_script : list N := Text.str
"
<script>
// Auto-reload functionality
(function() {
    let lastCheck = Date.now();
    
    setInterval(function() {
        fetch(window.location.href, { method: 'HEAD' })
            .then(response => {
                const modified = response.headers.get('Last-Modified');
                if (modified && lastCheck && Date.parse(modified) > lastCheck) {
                    location.reload();
                }
            }).catch(() => {});
    }, 1000);
})();
</script>
".

(** [content.replace('</body>', reload_script + '</body>')] *)
Definition inject (content : list N) : list N :=
  replace body_close_str (reload_script ++ body_close_str) content.

Definition read_text (e : env) (rel : string) : M state (list N) :=
  match docs e !! rel with
  | Some bs =>
      match Text.read_text bs with
      | Some content => ret content
      | None => raise ValueError
      end
  | None => raise (OSError ENOENT)
  end.

Definition encode (content : list N) : M state (list byte) :=
  match Text.utf8_encode content with
  | Some bs => ret bs
  | None => raise ValueError
  end.

Definition relative (path : string) : string :=
  let rel := Py.lstrip_slash path in
  if String.eqb rel "" then "index.html" else rel.

Definition is_html_file (e : env) (rel : string) : bool :=
  bool_decide (is_Some (docs e !! rel)) &&
  String.eqb (Py.path_suffix rel) ".html".

Definition do_GET (e : env) (path : string) : M state reply :=
  if html_request path && is_html_file e (relative path)
  then
    content ← read_text e (relative path);
    let content := inject content in
    encoded ← encode content;
    mret (Served {| status := 200;
                    headers := [("Content-Type", "text/html; charset=utf-8");
                                ("Last-Modified", http_date e)]
                               ++ end_headers;
                    body := encoded |})
  else mret (Delegated path).

(** *** The watcher *)

Definition keep_dir (d : string) : bool := negb (Py.startswith d ".").

(** [not file.startswith('.') and not file.endswith('.swp')] *)
Definition eligible (file : string) : bool :=
  negb (Py.startswith file ".") && negb (Py.endswith file ".swp").

(** [os.path.getmtime(file_path)] *)
Definition getmtime (file_path : string) : M state Z :=
  st ← get;
  match disk_mtimes st !! file_path with
  | Some mtime => mret mtime
  | None => raise (OSError ENOENT)
  end.

(** Lines 115-122 for one eligible file; [now] is the time [os.utime]
    stamps on [index.html]. *)
Definition check_file (docs_dir : string) (now : Z) (file_path : string)
  : M state unit :=
  mtime ← getmtime file_path;
  st ← get;
  when (last_check_time st <? mtime)
       (modify (set_last_check_time mtime) ;;
        let index_path := Py.path_join docs_dir "index.html" in
        st ← get;
        when (bool_decide (is_Some (disk_mtimes st !! index_path)))
             (modify (touch index_path now))).

(** The [for root, dirs, files in os.walk(DOCS_DIR)] loop. *)
Definition scan (docs_dir : string) (listing : dirtree) (now : Z)
  : M state unit :=
  for_each
    (λ yielded : string * list string,
       let (root, files) := yielded in
       for_each
         (λ file,
            when (eligible file)
                 (check_file docs_dir now (Py.path_join root file)))
         files)
    (walk keep_dir docs_dir listing).

(** One turn of [while True]: lines 108-124. *)
Definition cycle (docs_dir : string) (listing : dirtree) (now : Z)
  : M state unit :=
  sleep 1000 ;;
  try_except is_BaseException
    (scan docs_dir listing now)
    (λ _, mret tt).

(** [watch_files()] over the listings and clock readings of its first
    turns. *)
Definition watch_files (docs_dir : string) (turns : list (dirtree * Z))
  : M state unit :=
  for_each (λ turn : dirtree * Z, cycle docs_dir turn.1 turn.2) turns.

(** *** Start-up *)

(** [kill_port(port)] *)
Definition kill_port : M state unit := sleep 500.

(** [main()] *)
Definition main (h : host) : M state outcome :=
  print CheckingPort ;;
  kill_port ;;
  when (negb (docs_exists h))
       (print DocsNotFound ;; raise (SystemExit 1)) ;;
  bind_socket h ;;
  print Banner ;;
  mret Serving.

End ServeDocs.

(** *** What a scan amounts to

    The paths a scan checks, in order, and the net effect of checking one
    of them; [scan_run] below shows that [scan] is exactly the iteration of
    [check_file_effect] over [candidates]. *)
Module LiveServerSummary.
Import LiveServer.

Definition candidates (directory : string) (t : dirtree) : list string :=
  flat_map
    (λ yielded : string * list string,
       Py.path_join yielded.1 <$> List.filter watched yielded.2)
    (walk keep_dir directory t).

Definition check_file_effect (fs : filesystem) (filepath : string)
    (st : state) : state :=
  match mtimes fs !! filepath with
  | Some mtime =>
      set_file_mtime filepath mtime
        (match file_mtimes st !! filepath with
         | Some recorded =>
             if recorded <? mtime
             then set_should_reload true (emit (Print (FileChanged filepath)) st)
             else st
         | None => st
         end)
  | None => st
  end.

Definition scan_effect (directory : string) (fs : filesystem) (st : state)
  : state :=
  foldl (λ st filepath, check_file_effect fs filepath st) st
        (candidates directory (tree fs)).

(** [filepath] has a recorded time and its time on disk is above it. *)
Definition newer (fs : filesystem) (st : state) (filepath : string) : bool :=
  match mtimes fs !! filepath, file_mtimes st !! filepath with
  | Some mtime, Some recorded => recorded <? mtime
  | _, _ => false
  end.

(** No file the scan checks is newer than recorded. *)
Definition quiet (directory : string) (fs : filesystem) (st : state) : bool :=
  forallb (λ filepath, negb (newer fs st filepath))
          (candidates directory (tree fs)).

End LiveServerSummary.

(** *** Files a scan reaches

    [watched_file_at directory t filepath]: [filepath] names a file with a
    watched extension that lies in the tree [t] rooted at [directory], no
    directory on the way down to it being pruned. *)
Inductive watched_file_at : string → dirtree → string → Prop :=
| watched_here directory subdirs files file :
    file ∈ files → LiveServer.watched file = true →
    watched_file_at directory (Dir subdirs files)
                    (Py.path_join directory file)
| watched_below directory subdirs files d sub filepath :
    (d, sub) ∈ subdirs → LiveServer.keep_dir d = true →
    watched_file_at (Py.path_join directory d) sub filepath →
    watched_file_at directory (Dir subdirs files) filepath.

(** *** The two kinds of step of the running server *)
Module LiveServerSteps.
Import LiveServer.

Inductive operation :=
| Detect (directory : string) (fs : filesystem)   (* one detector cycle *)
| Request (e : env) (path : string).              (* one GET request *)

Definition perform (op : operation) (st : state) : state :=
  match op with
  | Detect directory fs => (cycle directory fs st).2
  | Request e path => (do_GET e path st).2
  end.

Definition run (ops : list operation) (st : state) : state :=
  foldl (λ st op, perform op st) st ops.

(** Between two polls: detector cycles that find nothing newer, and
    requests other than polls. *)
Fixpoint undisturbed (st : state) (ops : list operation) : bool :=
  match ops with
  | [] => true
  | op :: ops' =>
      match op with
      | Detect directory fs => LiveServerSummary.quiet directory fs st
      | Request _ path => negb (String.eqb path reload_check_path)
      end && undisturbed (perform op st) ops'
  end.

End LiveServerSteps.

(** The induction principle of [dirtree], with the hypothesis for every
    sub-directory. *)
Fixpoint dirtree_ind (P : dirtree → Prop)
    (step : ∀ subdirs files,
        Forall (λ entry : string * dirtree, P entry.2) subdirs →
        P (Dir subdirs files))
    (t : dirtree) : P t :=
  match t with
  | Dir subdirs files =>
      step subdirs files
        ((fix each (l : list (string * dirtree))
            : Forall (λ entry : string * dirtree, P entry.2) l :=
            match l with
            | [] => List.Forall_nil _
            | entry :: l' =>
                @List.Forall_cons _ _ entry l'
                  (match entry as e return P e.2 with
                   | (_, sub) => dirtree_ind P step sub
                   end)
                  (each l')
            end) subdirs)
  end.

(** *** Files the other two scripts examine *)

Module ServeDocsSummary.
Import ServeDocs.

Definition candidates (docs_dir : string) (listing : dirtree) : list string :=
  flat_map
    (λ yielded : string * list string,
       Py.path_join yielded.1 <$> List.filter eligible yielded.2)
    (walk keep_dir docs_dir listing).

(** No file the scan examines is newer than the watermark. *)
Definition quiet (docs_dir : string) (listing : dirtree) (st : state) : bool :=
  forallb (λ file_path,
             match disk_mtimes st !! file_path with
             | Some mtime => mtime <=? last_check_time st
             | None => true
             end)
          (candidates docs_dir listing).

End ServeDocsSummary.

Module PreviewDocsSummary.
Import PreviewDocs.

Definition candidates (e : env) : list string :=
  flat_map
    (λ yielded : string * list string,
       Py.path_join yielded.1
         <$> List.filter (λ file, negb (Py.startswith file ".")) yielded.2)
    (walk keep_dir (DOCS_DIR e) (tree (fs e))).

End PreviewDocsSummary.

(* ------------------------------------------------------------------ *)
(** ** A small documentation tree, used in the examples *)

Module Example.

Definition root : string := "/docs".

Definition listing : dirtree :=
  Dir [(".git", Dir [] ["config.json"]); ("css", Dir [] ["site.css"])]
      ["index.html"; "notes.txt"].

(** The tree with [index.html] last written at time 10. *)
Definition fs_before : filesystem :=
  {| tree := listing;
     mtimes := {[ "/docs/index.html" := 10; "/docs/css/site.css" := 5;
                  "/docs/.git/config.json" := 7; "/docs/notes.txt" := 3 ]} |}.

(** The same tree after [index.html] was touched at time 20. *)
Definition fs_touched : filesystem :=
  {| tree := listing;
     mtimes := {[ "/docs/index.html" := 20; "/docs/css/site.css" := 5;
                  "/docs/.git/config.json" := 7; "/docs/notes.txt" := 3 ]} |}.

(** The live-server state after a first scan of [fs_before]. *)
Definition scanned : LiveServer.state :=
  {| LiveServer.file_mtimes :=
       {[ "/docs/index.html" := 10; "/docs/css/site.css" := 5 ]};
     LiveServer.should_reload := false;
     LiveServer.console := [Sleep 500] |}.

Definition page : list byte := Py.encode_ascii "<body>Hi</body>".

Definition live_env : LiveServer.env :=
  {| LiveServer.translate_path := λ path, "/docs" +:+ path;
     LiveServer.disk := {[ "/docs/index.html" := page ]} |}.

(** The text of an answer, for reading off what a poll returned. *)
Definition answer (r : result reply * LiveServer.state) : string :=
  match r.1 with
  | Ok (Served resp) => string_of_list_byte (body resp)
  | _ => ""
  end.



End Example.

(** HTML files for the handler examples. *)
Module ExamplePages.

(** ["<p>hi</p>\r\n"]: no closing body tag, Windows line ending. *)
Definition crlf_page : list byte :=
  Py.encode_ascii "<p>hi</p>" ++ ["013"%byte; "010"%byte].

(** What the text-mode handlers serve for it: ["<p>hi</p>\n"]. *)
Definition lf_page : list byte :=
  Py.encode_ascii "<p>hi</p>" ++ ["010"%byte].

Definition one_tag : list byte := Py.encode_ascii "<body>Hi</body>".

Definition empty_tree : filesystem := {| tree := Dir [] []; mtimes := ∅ |}.

Definition preview_env : PreviewDocs.env :=
  {| PreviewDocs.docs := {[ "a.html" := crlf_page; "index.html" := one_tag ]};
     PreviewDocs.fs := empty_tree;
     PreviewDocs.DOCS_DIR := "/docs";
     PreviewDocs.format_mtime := pretty |}.

Definition serve_env : ServeDocs.env :=
  {| ServeDocs.docs := {[ "a.html" := crlf_page; "index.html" := one_tag ]};
     ServeDocs.http_date := "Wed, 04 Nov 2026 16:11:00 GMT" |}.

Definition serve_state : ServeDocs.state :=
  {| ServeDocs.last_check_time := 100;
     ServeDocs.disk_mtimes := ∅;
     ServeDocs.console := [] |}.

Definition live_env : LiveServer.env :=
  {| LiveServer.translate_path := λ path, "/docs" +:+ path;
     LiveServer.disk := {[ "/docs/a.html" := crlf_page;
                           "/docs/index.html" := one_tag ]} |}.

End ExamplePages.

(** A listing whose first file has vanished before it is stat-ed. *)
Module ExampleVanished.

Definition listing : dirtree := Dir [] ["gone.md"; "new.md"].
Definition listing_without : dirtree := Dir [] ["new.md"].

Definition serve_state : ServeDocs.state :=
  {| ServeDocs.last_check_time := 100;
     ServeDocs.disk_mtimes :=
       {[ "/docs/index.html" := 50; "/docs/new.md" := 150 ]};
     ServeDocs.console := [] |}.

Definition preview_env : PreviewDocs.env :=
  {| PreviewDocs.docs := ∅;
     PreviewDocs.fs := {| tree := listing;
                          mtimes := {[ "/docs/new.md" := 150 ]} |};
     PreviewDocs.DOCS_DIR := "/docs";
     PreviewDocs.format_mtime := pretty |}.

Definition live_fs : filesystem :=
  {| tree := listing; mtimes := {[ "/docs/new.md" := 150 ]} |}.

(** A loop body that fails with an exception other than [OSError]. *)
Definition failing_body : M LiveServer.state unit := raise ValueError.

Definition missing_docs : host :=
  {| docs_exists := false; bind_errno := None; port_busy := false |}.

Definition port_taken : host :=
  {| docs_exists := true; bind_errno := Some EADDRINUSE; port_busy := true |}.

End ExampleVanished.

(** serve-docs with its watermark at the newest file. *)
Module ExampleIdle.

Definition serve_state : ServeDocs.state :=
  {| ServeDocs.last_check_time := 150;
     ServeDocs.disk_mtimes :=
       {[ "/docs/index.html" := 50; "/docs/new.md" := 150 ]};
     ServeDocs.console := [] |}.

End ExampleIdle.

(** Listings whose missing file stands in the middle of the walk: between
    two files of the top directory, and first in a subdirectory that is
    walked after the files of the top directory. *)
Module ExampleAbandoned.

Definition listing : dirtree := Dir [] ["new.md"; "gone.md"; "late.md"].

Definition serve_state : ServeDocs.state :=
  {| ServeDocs.last_check_time := 100;
     ServeDocs.disk_mtimes :=
       {[ "/docs/index.html" := 50; "/docs/new.md" := 150;
          "/docs/late.md" := 180 ]};
     ServeDocs.console := [] |}.

(** The state once [new.md] has been examined at time 200: the watermark
    is its modification time and [index.html] has been touched. *)
Definition after_new : ServeDocs.state :=
  {| ServeDocs.last_check_time := 150;
     ServeDocs.disk_mtimes :=
       <[ "/docs/index.html" := 200 ]> (ServeDocs.disk_mtimes serve_state);
     ServeDocs.console := [Sleep 1000] |}.

Definition nested : dirtree :=
  Dir [("guide", Dir [] ["gone.md"; "late.md"])] ["new.md"].

Definition nested_state : ServeDocs.state :=
  {| ServeDocs.last_check_time := 100;
     ServeDocs.disk_mtimes :=
       {[ "/docs/index.html" := 50; "/docs/new.md" := 150;
          "/docs/guide/late.md" := 180 ]};
     ServeDocs.console := [] |}.

End ExampleAbandoned.

(* ================================================================== *)
(** * Properties *)

(* ------------------------------------------------------------------ *)
(** ** Search and replacement *)

Section SequenceFacts.
Context {A : Type} `{EqDecision A}.
Implicit Types old new s p rest : list A.

Lemma replace_from_skip old new pre rest :
  replace_from old new (length pre) (pre ++ rest)
  = replace_from old new 0 rest.
Proof.
  induction pre as [|c pre IH]; simpl.
  - destruct rest; reflexivity.
  - exact IH.
Qed.

Lemma replace_nil old new : replace old new [] = [].
Proof. reflexivity. Qed.

Lemma replace_match old new rest :
  old ≠ [] → replace old new (old ++ rest) = new ++ replace old new rest.
Proof.
  destruct old as [|h t]; [done|]. intros _.
  unfold replace. simpl.
  rewrite bool_decide_eq_true_2 by (by exists rest).
  rewrite Nat.sub_0_r. by rewrite replace_from_skip.
Qed.

Lemma replace_no_match old new c s :
  ¬ old `prefix_of` (c :: s) →
  replace old new (c :: s) = c :: replace old new s.
Proof.
  intros Hn. unfold replace. simpl.
  by rewrite bool_decide_eq_false_2.
Qed.

Lemma contains_cons_false old c s :
  contains old (c :: s) = false →
  ¬ old `prefix_of` (c :: s) ∧ contains old s = false.
Proof.
  simpl. intros [Hp Hs]%orb_false_elim. split; [|done].
  by apply bool_decide_eq_false in Hp.
Qed.

Lemma contains_prefix old s :
  old `prefix_of` s → contains old s = true.
Proof.
  intros Hp. destruct s; simpl; by rewrite bool_decide_eq_true_2.
Qed.

Lemma contains_nil old : old ≠ [] → contains old [] = false.
Proof.
  intros Hne. simpl. rewrite bool_decide_eq_false_2; [done|].
  intros Hp. by apply prefix_nil_inv in Hp.
Qed.

Lemma replace_absent old new s :
  contains old s = false → replace old new s = s.
Proof.
  induction s as [|c s IH]; [done|].
  intros [Hp Hs]%contains_cons_false.
  rewrite replace_no_match by done. by rewrite IH.
Qed.

Lemma occurrences_absent old s :
  contains old s = false ↔ occurrences old s = 0%nat.
Proof.
  induction s as [|c s IH]; simpl.
  - destruct (bool_decide _); simpl; split; (done || lia).
  - destruct (bool_decide _); simpl; [split; (done || lia)|].
    exact IH.
Qed.

(** No occurrence begins inside a stretch that is free of the pattern,
    even when the pattern itself follows the stretch. *)
Lemma no_prefix_inside h t p rest :
  p ≠ [] → h ∉ t → contains (h :: t) p = false →
  ¬ (h :: t) `prefix_of` (p ++ (h :: t) ++ rest).
Proof.
  intros Hp Hh Hc [k Hk].
  destruct (decide (length (h :: t) ≤ length p)%nat) as [Hle|Hgt].
  - assert ((h :: t) `prefix_of` p) as Hpre.
    { exists (drop (length (h :: t)) p).
      rewrite <- (take_drop (length (h :: t)) p) at 1. f_equal.
      rewrite <- (take_app_le p ((h :: t) ++ rest)) by exact Hle.
      rewrite Hk. by rewrite take_app_length. }
    apply contains_prefix in Hpre. congruence.
  - assert (((h :: t) ++ k) !! length p = Some h) as Hl.
    { rewrite <- Hk. rewrite lookup_app_r by lia.
      by rewrite Nat.sub_diag. }
    rewrite lookup_app_l in Hl by lia.
    destruct p as [|c p]; [done|]. simpl in Hl.
    apply Hh. by eapply list_elem_of_lookup_2.
Qed.

Lemma replace_piece old new p rest :
  no_self_overlap old → contains old p = false →
  replace old new (p ++ old ++ rest) = p ++ new ++ replace old new rest.
Proof.
  destruct old as [|h t]; [done|]. simpl. intros Hh.
  induction p as [|c p IH]; intros Hc.
  - by apply (replace_match (h :: t)).
  - pose proof (contains_cons_false _ _ _ Hc) as [_ Hc'].
    rewrite <- app_comm_cons.
    rewrite replace_no_match.
    + by rewrite IH.
    + rewrite app_comm_cons. by apply no_prefix_inside.
Qed.

Lemma replace_join old new pieces :
  no_self_overlap old → Forall (free_of old) pieces →
  replace old new (join old pieces) = join new pieces.
Proof.
  intros Hold. induction 1 as [|p ps Hp Hps IH]; [done|].
  destruct ps as [|q ps].
  - simpl. by apply replace_absent.
  - change (join old (p :: q :: ps)) with (p ++ old ++ join old (q :: ps)).
    change (join new (p :: q :: ps)) with (p ++ new ++ join new (q :: ps)).
    rewrite replace_piece by done. by rewrite IH.
Qed.

Lemma occurrences_skip h t pre rest :
  Forall (λ x, x ≠ h) pre →
  occurrences (h :: t) (pre ++ rest) = occurrences (h :: t) rest.
Proof.
  induction 1 as [|x pre Hx _ IH]; [done|].
  simpl. rewrite bool_decide_eq_false_2; [exact IH|].
  intros [k Hk]. simpl in Hk. by inversion Hk.
Qed.

Lemma occurrences_match old rest :
  no_self_overlap old →
  occurrences old (old ++ rest) = S (occurrences old rest).
Proof.
  destruct old as [|h t]; [done|]. simpl. intros Hh.
  rewrite bool_decide_eq_true_2 by (by exists rest).
  rewrite occurrences_skip; [done|].
  apply Forall_forall. intros x Hx ->. done.
Qed.

Lemma join_two sep p q : join sep [p; q] = p ++ sep ++ q.
Proof. reflexivity. Qed.

(** Every sequence is its pattern-free stretches joined by the pattern,
    one more stretch than there are occurrences. *)
Lemma split_at_occurrences old s :
  no_self_overlap old →
  ∃ pieces, s = join old pieces ∧ Forall (free_of old) pieces
            ∧ length pieces = S (occurrences old s).
Proof.
  intros Hold.
  assert (old ≠ []) as Hne by (by destruct old).
  induction s as [s IH] using (induction_ltof1 _ (@length A)).
  unfold ltof in IH.
  destruct (decide (old `prefix_of` s)) as [[rest ->]|Hnp].
  - destruct (IH rest) as (ps & Hs & Hfree & Hlen).
    { rewrite length_app. destruct old; [done|]. simpl. lia. }
    exists ([] :: ps). split; [|split].
    + destruct ps as [|q ps]; [done|]. simpl in *. by rewrite <- Hs.
    + constructor; [|done]. by apply contains_nil.
    + simpl. rewrite Hlen. by rewrite occurrences_match.
  - destruct s as [|c s].
    + exists [[]]. split; [done|]. split.
      * constructor; [|done]. by apply contains_nil.
      * simpl. by rewrite bool_decide_eq_false_2.
    + destruct (IH s) as (ps & Hs & Hfree & Hlen); [simpl; lia|].
      destruct ps as [|p ps]; [done|].
      exists ((c :: p) :: ps). split; [|split].
      * destruct ps; simpl in *; by rewrite Hs.
      * apply Forall_cons in Hfree as [Hp Hps].
        constructor; [|done]. unfold free_of. simpl.
        rewrite Hp, orb_false_r. apply bool_decide_eq_false_2.
        intros Hpre. apply Hnp. etrans; [exact Hpre|].
        rewrite Hs. destruct ps; simpl.
        -- done.
        -- rewrite app_comm_cons. by apply prefix_app_r.
      * simpl. rewrite bool_decide_eq_false_2 by done. simpl.
        simpl in Hlen. exact Hlen.
Qed.

Lemma occurrences_piece old p rest :
  no_self_overlap old → free_of old p →
  occurrences old (p ++ old ++ rest) = S (occurrences old rest).
Proof.
  intros Hold. induction p as [|c p IH]; intros Hc.
  - by apply (occurrences_match old rest).
  - pose proof (contains_cons_false _ _ _ Hc) as [_ Hc'].
    destruct old as [|h t]; [done|].
    rewrite <- app_comm_cons.
    change (occurrences (h :: t) (c :: p ++ (h :: t) ++ rest))
      with ((if bool_decide ((h :: t) `prefix_of`
                               (c :: p ++ (h :: t) ++ rest))
             then 1 else 0)
            + occurrences (h :: t) (p ++ (h :: t) ++ rest))%nat.
    rewrite bool_decide_eq_false_2.
    + by apply IH.
    + rewrite app_comm_cons. by apply no_prefix_inside.
Qed.

(** Two pattern-free stretches stay pattern-free when put together,
    provided the first element of the second is foreign to the pattern. *)
Lemma free_of_app old p x q :
  x ∉ old → free_of old p → free_of old (x :: q) →
  free_of old (p ++ x :: q).
Proof.
  intros Hx. induction p as [|c p IH]; intros Hp Hq; [done|].
  pose proof (contains_cons_false _ _ _ Hp) as [Hnp Hp'].
  unfold free_of. simpl. apply orb_false_intro; [|by apply IH].
  apply bool_decide_eq_false_2. intros [k Hk].
  destruct (decide (length old ≤ length (c :: p))%nat) as [Hle|Hgt].
  - apply Hnp. exists (drop (length old) (c :: p)).
    rewrite <- (take_drop (length old) (c :: p)) at 1. f_equal.
    rewrite <- (take_app_le (c :: p) (x :: q)) by exact Hle.
    change ((c :: p) ++ x :: q) with (c :: p ++ x :: q).
    rewrite Hk. by rewrite take_app_length.
  - apply Hx. apply (list_elem_of_lookup_2 _ (length (c :: p))).
    rewrite <- (lookup_app_l old k) by lia. rewrite <- Hk.
    change (c :: p ++ x :: q) with ((c :: p) ++ x :: q).
    rewrite lookup_app_r by lia. by rewrite Nat.sub_diag.
Qed.
End SequenceFacts.

(* ------------------------------------------------------------------ *)
(** ** The monad *)

Section MonadFacts.
Context {S : Type}.

Lemma for_each_app {X} (f : X → M S unit) xs ys s :
  for_each f (xs ++ ys) s = (for_each f xs ;; for_each f ys) s.
Proof.
  revert s. induction xs as [|x xs IH]; intros s; simpl.
  - reflexivity.
  - unfold mbind, M_bind, bind. destruct (f x s) as [[[]|e] s']; [|done].
    rewrite IH. reflexivity.
Qed.

(** A loop whose body never raises is a fold. *)
Lemma for_each_total {X} (f : X → M S unit) (g : S → X → S) xs s :
  (∀ x s, f x s = (Ok tt, g s x)) →
  for_each f xs s = (Ok tt, foldl g s xs).
Proof.
  intros Hf. revert s. induction xs as [|x xs IH]; intros s; simpl.
  - reflexivity.
  - unfold mbind, M_bind, bind. rewrite Hf. apply IH.
Qed.

Lemma bind_ext {A B} (m1 m2 : M S A) (k1 k2 : A → M S B) s :
  m1 s = m2 s → (∀ a s', k1 a s' = k2 a s') →
  (m1 ≫= k1) s = (m2 ≫= k2) s.
Proof.
  intros Hm Hk. unfold mbind, M_bind, bind. rewrite Hm.
  destruct (m2 s) as [[a|e] s']; [apply Hk|done].
Qed.

Lemma fold_each_app {X B} (f : B → X → M S B) acc xs ys s :
  fold_each f acc (xs ++ ys) s
  = (acc' ← fold_each f acc xs; fold_each f acc' ys) s.
Proof.
  revert acc s. induction xs as [|x xs IH]; intros acc s; simpl.
  - reflexivity.
  - unfold mbind, M_bind, bind. destruct (f acc x s) as [[acc'|e] s']; [|done].
    rewrite IH. reflexivity.
Qed.

(** A guarded loop step is a loop over the filtered, mapped list. *)
Lemma fold_each_filter_map {X Y B} (keep : X → bool) (h : X → Y)
    (g : B → Y → M S B) acc xs s :
  fold_each (λ acc x, if keep x then g acc (h x) else mret acc) acc xs s
  = fold_each g acc (h <$> List.filter keep xs) s.
Proof.
  revert acc s. induction xs as [|x xs IH]; intros acc s; simpl.
  - reflexivity.
  - destruct (keep x); simpl.
    + unfold mbind, M_bind, bind.
      destruct (g acc (h x) s) as [[acc'|e] s']; [apply IH|done].
    + unfold mbind, M_bind, bind, mret, M_ret, ret. apply IH.
Qed.

(** A loop stops at the first element on which its body raises without
    touching the state, whatever the accumulator. *)
Lemma fold_each_raises {X B} (f : B → X → M S B) exc xs x :
  x ∈ xs →
  (∀ acc s, f acc x s = (Raise exc, s)) →
  (∀ acc y s, y ∈ xs →
     (∃ acc', f acc y s = (Ok acc', s)) ∨ f acc y s = (Raise exc, s)) →
  ∀ acc s, fold_each f acc xs s = (Raise exc, s).
Proof.
  intros Hin Hx. induction xs as [|y xs IH]; intros Hall acc s.
  - by apply elem_of_nil in Hin.
  - simpl. unfold mbind, M_bind, bind.
    destruct (Hall acc y s) as [[acc' Hy]|Hy];
      [apply elem_of_cons; by left| |by rewrite Hy].
    rewrite Hy. apply elem_of_cons in Hin as [->|Hin].
    + rewrite Hx in Hy. discriminate.
    + apply IH; [done|]. intros ? ? ? ?. apply Hall.
      apply elem_of_cons. by right.
Qed.

Lemma try_except_ok {A} catches (body : M S A) handler s a s' :
  body s = (Ok a, s') → try_except catches body handler s = (Ok a, s').
Proof. intros Hb. unfold try_except. by rewrite Hb. Qed.

End MonadFacts.

(* ------------------------------------------------------------------ *)
(** ** live-server.py: the change detector *)

Section LiveDetector.
Import LiveServer LiveServerSummary.
Implicit Types (st : state) (fs : filesystem) (filepath directory : string).

Lemma check_file_run fs filepath st :
  check_file fs filepath st = (Ok tt, check_file_effect fs filepath st).
Proof.
  unfold check_file, check_file_effect, try_except, getmtime.
  unfold mbind, M_bind, bind.
  destruct (mtimes fs !! filepath) as [mtime|]; simpl; [|done].
  destruct (file_mtimes st !! filepath) as [recorded|]; simpl; [|done].
  destruct (recorded <? mtime); simpl; done.
Qed.

Lemma scan_run directory fs st :
  scan directory fs st = (Ok tt, scan_effect directory fs st).
Proof.
  unfold scan, scan_effect, candidates.
  generalize (walk keep_dir directory (tree fs)) as ys.
  intros ys. revert st. induction ys as [|[root files] ys IH]; intros st.
  - reflexivity.
  - simpl. rewrite foldl_app.
    unfold mbind, M_bind, bind.
    assert (∀ st, for_each
              (λ file, when (watched file)
                            (check_file fs (Py.path_join root file)))
              files st
            = (Ok tt, foldl (λ st filepath, check_file_effect fs filepath st)
                            st (Py.path_join root <$> List.filter watched files)))
      as ->.
    { clear. induction files as [|file files IHf]; intros st; [done|].
      simpl. unfold mbind, M_bind, bind, when.
      destruct (watched file); simpl.
      - rewrite check_file_run. apply IHf.
      - apply IHf. }
    apply IH.
Qed.

Lemma cycle_run directory fs st :
  cycle directory fs st
  = (Ok tt, emit (Sleep CHECK_INTERVAL) (scan_effect directory fs st)).
Proof.
  unfold cycle, guarded, try_except, mbind, M_bind, bind.
  by rewrite scan_run.
Qed.

Local Abbreviation run_checks fs :=
  (foldl (λ st filepath, check_file_effect fs filepath st)).

Lemma check_file_effect_flag fs filepath st :
  should_reload (check_file_effect fs filepath st)
  = should_reload st
    || match mtimes fs !! filepath, file_mtimes st !! filepath with
       | Some mtime, Some recorded => recorded <? mtime
       | _, _ => false
       end.
Proof.
  unfold check_file_effect.
  destruct (mtimes fs !! filepath) as [mtime|];
    [|by rewrite orb_false_r].
  destruct (file_mtimes st !! filepath) as [recorded|]; simpl;
    [|by rewrite orb_false_r].
  destruct (recorded <? mtime); simpl;
    [by rewrite orb_true_r | by rewrite orb_false_r].
Qed.

Lemma check_file_effect_snapshot fs filepath st :
  file_mtimes (check_file_effect fs filepath st)
  = match mtimes fs !! filepath with
    | Some mtime => <[filepath := mtime]> (file_mtimes st)
    | None => file_mtimes st
    end.
Proof.
  unfold check_file_effect.
  destruct (mtimes fs !! filepath) as [mtime|]; [|done].
  destruct (file_mtimes st !! filepath) as [recorded|]; simpl; [|done].
  by destruct (recorded <? mtime).
Qed.

Lemma check_file_effect_other fs filepath other st :
  filepath ≠ other →
  file_mtimes (check_file_effect fs filepath st) !! other
  = file_mtimes st !! other.
Proof.
  intros Hne. rewrite check_file_effect_snapshot.
  destruct (mtimes fs !! filepath); [|done].
  by rewrite lookup_insert_ne.
Qed.

Lemma run_checks_flag_mono fs paths st :
  should_reload st = true → should_reload (run_checks fs st paths) = true.
Proof.
  revert st. induction paths as [|p paths IH]; intros st Hst; [done|].
  simpl. apply IH. rewrite check_file_effect_flag. by rewrite Hst.
Qed.

Lemma run_checks_absent fs paths other st :
  other ∉ paths →
  file_mtimes (run_checks fs st paths) !! other = file_mtimes st !! other.
Proof.
  revert st. induction paths as [|p paths IH]; intros st Hin; [done|].
  apply not_elem_of_cons in Hin as [Hne Hin]. simpl.
  rewrite IH by done. by apply check_file_effect_other.
Qed.

Lemma run_checks_deleted fs paths other st :
  mtimes fs !! other = None →
  file_mtimes (run_checks fs st paths) !! other = file_mtimes st !! other.
Proof.
  intros Hgone. revert st.
  induction paths as [|p paths IH]; intros st; [done|].
  simpl. rewrite IH. rewrite check_file_effect_snapshot.
  destruct (mtimes fs !! p) eqn:Hp; [|done].
  rewrite lookup_insert_ne; [done|]. congruence.
Qed.

Lemma run_checks_recorded fs paths filepath mtime st :
  filepath ∈ paths → mtimes fs !! filepath = Some mtime →
  file_mtimes (run_checks fs st paths) !! filepath = Some mtime.
Proof.
  intros Hin Hm. revert st.
  induction paths as [|p paths IH]; intros st; [by apply elem_of_nil in Hin|].
  simpl. destruct (decide (filepath ∈ paths)) as [Hin'|Hout].
  - by apply IH.
  - apply elem_of_cons in Hin as [->|]; [|done].
    rewrite run_checks_absent by done.
    rewrite check_file_effect_snapshot, Hm. by rewrite lookup_insert_eq.
Qed.

Lemma run_checks_newer fs paths filepath mtime recorded st :
  filepath ∈ paths → mtimes fs !! filepath = Some mtime →
  file_mtimes st !! filepath = Some recorded → recorded < mtime →
  should_reload (run_checks fs st paths) = true.
Proof.
  intros Hin Hm. revert st.
  induction paths as [|p paths IH]; intros st Hrec Hlt;
    [by apply elem_of_nil in Hin|].
  simpl. destruct (decide (p = filepath)) as [->|Hne].
  - apply run_checks_flag_mono. rewrite check_file_effect_flag, Hm, Hrec.
    apply orb_true_intro. right. by apply Z.ltb_lt.
  - apply elem_of_cons in Hin as [|Hin]; [congruence|].
    apply IH; [done| |done].
    by rewrite check_file_effect_other.
Qed.

Lemma check_file_effect_newer fs filepath st :
  should_reload (check_file_effect fs filepath st)
  = should_reload st || newer fs st filepath.
Proof. apply check_file_effect_flag. Qed.

(** Checking one file cannot make another one newer; checking a file
    makes it not newer. *)
Lemma newer_after_check fs p filepath st :
  newer fs (check_file_effect fs p st) filepath = true →
  newer fs st filepath = true.
Proof.
  unfold newer. rewrite check_file_effect_snapshot.
  destruct (mtimes fs !! filepath) as [mtime|] eqn:Hm; [|done].
  destruct (mtimes fs !! p) as [mp|] eqn:Hp; [|done].
  destruct (decide (p = filepath)) as [->|Hne].
  - rewrite lookup_insert_eq. simplify_eq. intros Hlt.
    apply Z.ltb_lt in Hlt. lia.
  - by rewrite lookup_insert_ne.
Qed.

Lemma run_checks_quiet fs paths st :
  forallb (λ filepath, negb (newer fs st filepath)) paths = true →
  should_reload (run_checks fs st paths) = should_reload st.
Proof.
  revert st. induction paths as [|p paths IH]; intros st Hq; [done|].
  simpl in Hq. apply andb_true_iff in Hq as [Hp Hq].
  simpl. rewrite IH.
  - rewrite check_file_effect_newer.
    apply negb_true_iff in Hp. by rewrite Hp, orb_false_r.
  - apply forallb_forall. intros filepath Hin.
    rewrite forallb_forall in Hq. specialize (Hq filepath Hin).
    apply negb_true_iff. apply negb_true_iff in Hq.
    destruct (newer fs (check_file_effect fs p st) filepath) eqn:Hn;
      [|done].
    apply newer_after_check in Hn. congruence.
Qed.


Lemma emit_should_reload ev st :
  should_reload (emit ev st) = should_reload st.
Proof. reflexivity. Qed.

Lemma emit_file_mtimes ev st : file_mtimes (emit ev st) = file_mtimes st.
Proof. reflexivity. Qed.
End LiveDetector.

Section LiveReach.
Import LiveServer LiveServerSummary.

Lemma candidates_unfold directory subdirs files :
  candidates directory (Dir subdirs files)
  = (Py.path_join directory <$> List.filter watched files)
    ++ flat_map (λ entry : string * dirtree,
                   if keep_dir entry.1
                   then candidates (Py.path_join directory entry.1) entry.2
                   else [])
                subdirs.
Proof.
  unfold candidates. simpl. f_equal.
  induction subdirs as [|[d sub] subdirs IH]; [done|].
  simpl. rewrite flat_map_app. rewrite IH.
  by destruct (keep_dir d).
Qed.

(** The scan checks exactly the watched files it can reach. *)
Lemma candidates_spec t : ∀ directory filepath,
  filepath ∈ candidates directory t ↔ watched_file_at directory t filepath.
Proof.
  induction t as [subdirs files IH] using dirtree_ind.
  intros directory filepath. rewrite candidates_unfold. split.
  - intros [Hin|Hin]%elem_of_app.
    + apply list_elem_of_fmap in Hin as (file & -> & Hin).
      apply list_elem_of_In, filter_In in Hin as [Hin Hw].
      apply watched_here; [by apply list_elem_of_In|done].
    + apply list_elem_of_In, in_flat_map in Hin as ([d sub] & Hentry & Hin).
      simpl in Hin. destruct (keep_dir d) eqn:Hkeep; [|done].
      apply list_elem_of_In in Hentry, Hin.
      eapply watched_below; [done..|].
      rewrite Forall_forall in IH. by apply (IH (d, sub)).
  - intros Hat. inversion Hat as [? ? ? file Hin Hw|
                                  ? ? ? d sub ? Hentry Hkeep Hsub]; subst.
    + apply elem_of_app. left. apply list_elem_of_fmap.
      exists file. split; [done|].
      apply list_elem_of_In, filter_In. split; [|done].
      by apply list_elem_of_In.
    + apply elem_of_app. right.
      apply list_elem_of_In, in_flat_map. exists (d, sub). split.
      * by apply list_elem_of_In.
      * simpl. rewrite Hkeep. apply list_elem_of_In.
        rewrite Forall_forall in IH. by apply (IH (d, sub)).
Qed.
End LiveReach.

(* ------------------------------------------------------------------ *)
(** ** live-server.py: the request handler *)

Section LiveHandler.
Import LiveServer LiveServerSummary LiveServerSteps.
Implicit Types (st : state) (e : env) (path : string).

(** The polling endpoint: report the flag, then clear it. *)
Lemma do_GET_check e st :
  do_GET e reload_check_path st
  = (Ok (Served {| status := 200;
                   headers := ("Content-Type", "application/json")
                              :: end_headers;
                   body := reload_body (should_reload st) |}),
     if should_reload st then set_should_reload false st else st).
Proof.
  unfold do_GET. change (String.eqb reload_check_path reload_check_path)
    with true. cbv iota.
  unfold mbind, M_bind, bind, get, when. simpl.
  by destruct (should_reload st).
Qed.

Lemma html_request_not_check path :
  html_request path = true → String.eqb path reload_check_path = false.
Proof.
  intros Hh. destruct (String.eqb_spec path reload_check_path) as [->|];
    [|done].
  vm_compute in Hh. discriminate.
Qed.

(** An HTML request for a file that can be read. *)
Lemma do_GET_html e path st content :
  html_request path = true →
  disk e !! translate_path e
              (if String.eqb path "/" then "/index.html" else path)
    = Some content →
  do_GET e path st
  = (Ok (Served {| status := 200;
                   headers := [("Content-Type", "text/html");
                               ("Content-Length",
                                Py.str_nat (length (inject content)))]
                              ++ end_headers;
                   body := inject content |}),
     st).
Proof.
  intros Hh Hdisk. unfold do_GET.
  rewrite (html_request_not_check _ Hh).
  rewrite Hh.
  unfold try_except, mbind, M_bind, bind, read_bytes.
  by rewrite Hdisk.
Qed.

(** Every other request leaves both globals alone and never raises. *)
Lemma do_GET_other e path st :
  path ≠ reload_check_path →
  ∃ r st', do_GET e path st = (Ok r, st')
           ∧ should_reload st' = should_reload st
           ∧ file_mtimes st' = file_mtimes st.
Proof.
  intros Hne. unfold do_GET.
  destruct (String.eqb_spec path reload_check_path) as [|_]; [done|].
  destruct (html_request path).
  - unfold try_except, mbind, M_bind, bind, read_bytes.
    destruct (disk e !! _); simpl; eauto.
  - eauto.
Qed.

Lemma reload_body_true :
  string_of_list_byte (reload_body true)
  = "{" +:+ Py.dq +:+ "reload" +:+ Py.dq +:+ ": true}".
Proof. reflexivity. Qed.

Lemma reload_body_false :
  string_of_list_byte (reload_body false)
  = "{" +:+ Py.dq +:+ "reload" +:+ Py.dq +:+ ": false}".
Proof. reflexivity. Qed.
End LiveHandler.

(* ------------------------------------------------------------------ *)
(** ** serve-docs.py: the watcher *)

Section ServeWatcher.
Import ServeDocs ServeDocsSummary.
Implicit Types (st : state) (docs_dir file_path : string) (now : Z).

Lemma serve_check_file_gone docs_dir now file_path st :
  disk_mtimes st !! file_path = None →
  check_file docs_dir now file_path st = (Raise (OSError ENOENT), st).
Proof.
  intros Hgone. unfold check_file, getmtime, mbind, M_bind, bind, get.
  by rewrite Hgone.
Qed.




Lemma serve_scan_as_checks docs_dir listing now st :
  scan docs_dir listing now st
  = for_each (check_file docs_dir now) (candidates docs_dir listing) st.
Proof.
  unfold scan, candidates.
  generalize (walk keep_dir docs_dir listing) as ys. intros ys. revert st.
  induction ys as [|[root files] ys IH]; intros st; [done|].
  simpl. rewrite for_each_app.
  unfold mbind, M_bind, bind.
  assert (∀ st, for_each
            (λ file, when (eligible file)
                          (check_file docs_dir now (Py.path_join root file)))
            files st
          = for_each (check_file docs_dir now)
              (Py.path_join root <$> List.filter eligible files) st) as ->.
  { clear. induction files as [|file files IHf]; intros st; [done|].
    simpl. unfold when. destruct (eligible file); simpl.
    - unfold mbind, M_bind, bind.
      destruct (check_file _ _ _ st) as [[[]|] ?]; [apply IHf|done].
    - unfold mbind, M_bind, bind, ret. apply IHf. }
  destruct (for_each _ _ st) as [[[]|] ?]; [apply IH|done].
Qed.

Lemma serve_cycle_total docs_dir listing now st :
  ∃ st', cycle docs_dir listing now st = (Ok tt, st').
Proof.
  unfold cycle, try_except, mbind, M_bind, bind, sleep, modify.
  destruct (scan _ _ _ _) as [[[]|exc] st']; simpl; eauto.
Qed.

Lemma serve_watch_files_total docs_dir turns st :
  ∃ st', watch_files docs_dir turns st = (Ok tt, st').
Proof.
  unfold watch_files. revert st.
  induction turns as [|[listing now] turns IH]; intros st; [by eexists|].
  simpl. unfold mbind, M_bind, bind.
  destruct (serve_cycle_total docs_dir listing now st) as [st' ->].
  apply IH.
Qed.


(** The first eligible file of the top directory cannot be stat-ed: the
    whole scan is abandoned. *)
Lemma serve_cycle_abandoned docs_dir subdirs file files now st :
  eligible file = true →
  disk_mtimes st !! Py.path_join docs_dir file = None →
  cycle docs_dir (Dir subdirs (file :: files)) now st
  = (Ok tt, emit (Sleep 1000) st).
Proof.
  intros Hel Hgone.
  unfold cycle, try_except, mbind, M_bind, bind, sleep, modify.
  rewrite serve_scan_as_checks. unfold candidates. simpl. rewrite Hel.
  simpl. unfold mbind, M_bind, bind.
  by rewrite serve_check_file_gone.
Qed.

(** A candidate that cannot be stat-ed, wherever it stands in the walk: the
    scan is abandoned there.  The cycle ends, without raising, in the state
    reached after the candidates before it; those after it are not
    examined. *)
Lemma serve_cycle_abandoned_at docs_dir listing now st pre file_path post st1 :
  candidates docs_dir listing = pre ++ file_path :: post →
  for_each (check_file docs_dir now) pre (emit (Sleep 1000) st)
  = (Ok tt, st1) →
  disk_mtimes st1 !! file_path = None →
  cycle docs_dir listing now st = (Ok tt, st1).
Proof.
  intros Hcands Hpre Hgone.
  unfold cycle, try_except, mbind, M_bind, bind, sleep, modify.
  rewrite serve_scan_as_checks, Hcands, for_each_app.
  unfold mbind, M_bind, bind. rewrite Hpre.
  cbn [for_each]. unfold mbind, M_bind, bind.
  by rewrite serve_check_file_gone.
Qed.
End ServeWatcher.

(* ------------------------------------------------------------------ *)
(** ** preview-docs.py *)

Section PreviewFacts.
Import PreviewDocs PreviewDocsSummary.
Implicit Types (st : state) (e : env) (path : string).

Local Abbreviation stat_max e :=
  (λ (latest : Z) (file_path : string),
     mtime ← stat_mtime e file_path; mret (Z.max latest mtime)).

(** The walk as one loop over the files it stats. *)
Lemma get_last_modified_time_as_fold e st :
  get_last_modified_time e st = fold_each (stat_max e) 0 (candidates e) st.
Proof.
  unfold get_last_modified_time, candidates.
  generalize 0 as latest.
  generalize (walk keep_dir (DOCS_DIR e) (tree (fs e))) as ys.
  intros ys. revert st.
  induction ys as [|[root files] ys IH]; intros st latest; [done|].
  simpl. rewrite fold_each_app.
  apply bind_ext.
  - apply (fold_each_filter_map
             (λ file, negb (Py.startswith file "."))
             (Py.path_join root) (stat_max e)).
  - intros acc' st'. apply IH.
Qed.

Lemma stat_max_cases e latest file_path st :
  stat_max e latest file_path st
  = match mtimes (fs e) !! file_path with
    | Some mtime => (Ok (Z.max latest mtime), st)
    | None => (Raise (OSError ENOENT), st)
    end.
Proof.
  unfold mbind, M_bind, bind, stat_mtime.
  by destruct (mtimes (fs e) !! file_path).
Qed.

(** [get_last_modified_time] has no handler: one file that cannot be
    stat-ed makes it raise. *)
Lemma get_last_modified_time_raises e file_path st :
  file_path ∈ candidates e → mtimes (fs e) !! file_path = None →
  get_last_modified_time e st = (Raise (OSError ENOENT), st).
Proof.
  intros Hin Hgone. rewrite get_last_modified_time_as_fold.
  apply (fold_each_raises (stat_max e) (OSError ENOENT) _ file_path).
  - done.
  - intros acc s. rewrite stat_max_cases. by rewrite Hgone.
  - intros acc y s _. rewrite stat_max_cases.
    destruct (mtimes (fs e) !! y); eauto.
Qed.

Lemma html_request_not_reload path :
  html_request path = true →
  String.eqb path check_reload_path = false.
Proof.
  intros Hh. destruct (String.eqb_spec path check_reload_path) as [->|];
    [|done].
  vm_compute in Hh. discriminate.
Qed.

(** An HTML request for a file that exists, decodes and re-encodes. *)
Lemma preview_do_GET_html e path st bs content encoded :
  html_request path = true →
  is_html_file e (relative path) = true →
  docs e !! relative path = Some bs →
  Text.read_text bs = Some content →
  Text.utf8_encode (inject content) = Some encoded →
  do_GET e path st
  = (Ok (Served {| status := 200;
                   headers := [("Content-Type", "text/html; charset=utf-8");
                               ("Content-Length",
                                Py.str_nat (length encoded))]
                              ++ end_headers;
                   body := encoded |}),
     st).
Proof.
  intros Hh Hfile Hdocs Hread Henc. unfold do_GET.
  rewrite Hh, Hfile. simpl.
  unfold mbind, M_bind, bind, read_text, encode.
  rewrite Hdocs, Hread. simpl. by rewrite Henc.
Qed.
End PreviewFacts.

(* ------------------------------------------------------------------ *)
(** ** serve-docs.py: the request handler *)

Section ServeHandler.
Import ServeDocs.

Lemma serve_do_GET_headers e path st r st' :
  do_GET e path st = (Ok (Served r), st') →
  headers r = [("Content-Type", "text/html; charset=utf-8");
               ("Last-Modified", http_date e)] ++ end_headers.
Proof.
  unfold do_GET. destruct (_ && _).
  - unfold mbind, M_bind, bind, read_text, encode.
    destruct (docs e !! _) as [bs|]; [|done].
    destruct (Text.read_text bs) as [content|]; [|done]. simpl.
    destruct (Text.utf8_encode _); [|done].
    intros [= <- _]. done.
  - done.
Qed.
End ServeHandler.

(* ------------------------------------------------------------------ *)
(** ** UTF-8 *)

Lemma utf8_encode_app s1 s2 b1 b2 :
  Text.utf8_encode s1 = Some b1 → Text.utf8_encode s2 = Some b2 →
  Text.utf8_encode (s1 ++ s2) = Some (b1 ++ b2).
Proof.
  revert b1. induction s1 as [|c s1 IH]; intros b1 H1 H2; simpl in *.
  - by simplify_eq.
  - destruct (Text.utf8_encode_char c) as [bc|]; [|done].
    destruct (Text.utf8_encode s1) as [br|]; [|done].
    simplify_eq. rewrite (IH br) by done. by rewrite app_assoc.
Qed.

Lemma utf8_encode_app_inv s1 s2 b :
  Text.utf8_encode (s1 ++ s2) = Some b →
  ∃ b1 b2, Text.utf8_encode s1 = Some b1 ∧ Text.utf8_encode s2 = Some b2
           ∧ b = b1 ++ b2.
Proof.
  revert b. induction s1 as [|c s1 IH]; intros b Hb; simpl in *.
  - by exists [], b.
  - destruct (Text.utf8_encode_char c) as [bc|]; [|done].
    destruct (Text.utf8_encode (s1 ++ s2)) as [br|] eqn:Hr; [|done].
    destruct (IH br eq_refl) as (b1 & b2 & -> & -> & ->).
    simplify_eq. exists (bc ++ b1), b2. by rewrite app_assoc.
Qed.

(* ------------------------------------------------------------------ *)
(** ** The reload signal of live-server.py *)

Section LiveSignal.
Import LiveServer LiveServerSummary LiveServerSteps.
Implicit Types (st : state) (e : env) (fs : filesystem).

Lemma cycle_flag_quiet directory fs st :
  quiet directory fs st = true →
  should_reload (perform (Detect directory fs) st) = should_reload st.
Proof.
  intros Hq. simpl. rewrite cycle_run. simpl.
  by apply run_checks_quiet.
Qed.

Lemma undisturbed_flag ops : ∀ st,
  undisturbed st ops = true →
  should_reload (run ops st) = should_reload st.
Proof.
  induction ops as [|op ops IH]; intros st Hu; [done|].
  simpl in Hu. apply andb_true_iff in Hu as [Hop Hu].
  unfold run. simpl. fold (run ops (perform op st)).
  rewrite IH by done. destruct op as [directory fs|e path].
  - by apply cycle_flag_quiet.
  - apply negb_true_iff in Hop.
    destruct (do_GET_other e path st) as (r & st' & Hrun & Hflag & _).
    { intros ->. vm_compute in Hop. discriminate. }
    simpl. by rewrite Hrun.
Qed.
End LiveSignal.

(** C1: boolean-flag variant: a poll of the reload-check endpoint that
    finds the signal set answers [{"reload": true}] and clears the signal;
    the next poll answers [{"reload": false}] when, in between, the server
    only ran detector cycles that found no newer file and served other
    requests. *)
Theorem C1_poll_reads_and_clears
    (e e' : LiveServer.env) (st : LiveServer.state)
    (between : list LiveServerSteps.operation) :
  LiveServer.should_reload st = true →
  LiveServerSteps.undisturbed (LiveServer.set_should_reload false st) between
    = true →
  ∃ r1 r2 st2,
    LiveServer.do_GET e LiveServer.reload_check_path st
      = (Ok (Served r1), LiveServer.set_should_reload false st)
    ∧ string_of_list_byte (body r1)
      = "{" +:+ Py.dq +:+ "reload" +:+ Py.dq +:+ ": true}"
    ∧ LiveServer.do_GET e' LiveServer.reload_check_path
        (LiveServerSteps.run between (LiveServer.set_should_reload false st))
      = (Ok (Served r2), st2)
    ∧ string_of_list_byte (body r2)
      = "{" +:+ Py.dq +:+ "reload" +:+ Py.dq +:+ ": false}"
    ∧ LiveServer.should_reload st2 = false.
Proof.
  intros Hset Hcalm.
  pose proof (undisturbed_flag between _ Hcalm) as Hflag. simpl in Hflag.
  rewrite !do_GET_check, Hset, Hflag.
  do 3 eexists. split; [reflexivity|].
  split; [apply reload_body_true|].
  split; [reflexivity|].
  split; [apply reload_body_false|exact Hflag].
Qed.

(** C2: a watched file the scan reaches, recorded in the snapshot, whose
    modification time on disk is strictly greater than the recorded one:
    one detector cycle completes, sets the reload signal and records the
    new time. *)
Theorem C2_newer_file_sets_signal
    (directory : string) (fs : filesystem) (st : LiveServer.state)
    (filepath : string) (recorded mtime : Z) :
  watched_file_at directory (tree fs) filepath →
  LiveServer.file_mtimes st !! filepath = Some recorded →
  mtimes fs !! filepath = Some mtime →
  recorded < mtime →
  ∃ st', LiveServer.cycle directory fs st = (Ok tt, st')
         ∧ LiveServer.should_reload st' = true
         ∧ LiveServer.file_mtimes st' !! filepath = Some mtime.
Proof.
  intros Hat Hrec Hm Hlt. apply candidates_spec in Hat.
  eexists. split; [apply cycle_run|]. simpl. split.
  - by eapply run_checks_newer.
  - by apply run_checks_recorded.
Qed.

Lemma C1_poll_reads_and_clears_witness :
  let st := LiveServer.set_should_reload true Example.scanned in
  let between := [LiveServerSteps.Detect Example.root Example.fs_before;
                  LiveServerSteps.Request Example.live_env "/"] in
  ∃ r1 r2 st2,
    LiveServer.do_GET Example.live_env LiveServer.reload_check_path st
      = (Ok (Served r1), LiveServer.set_should_reload false st)
    ∧ string_of_list_byte (body r1)
      = "{" +:+ Py.dq +:+ "reload" +:+ Py.dq +:+ ": true}"
    ∧ LiveServer.do_GET Example.live_env LiveServer.reload_check_path
        (LiveServerSteps.run between (LiveServer.set_should_reload false st))
      = (Ok (Served r2), st2)
    ∧ string_of_list_byte (body r2)
      = "{" +:+ Py.dq +:+ "reload" +:+ Py.dq +:+ ": false}"
    ∧ LiveServer.should_reload st2 = false.
Proof.
  apply (C1_poll_reads_and_clears Example.live_env Example.live_env
           (LiveServer.set_should_reload true Example.scanned)
           [LiveServerSteps.Detect Example.root Example.fs_before;
            LiveServerSteps.Request Example.live_env "/"]).
  - reflexivity.
  - vm_compute. reflexivity.
Defined.

Lemma C2_newer_file_sets_signal_witness :
  watched_file_at Example.root (tree Example.fs_touched) "/docs/index.html"
  ∧ ∃ st', LiveServer.cycle Example.root Example.fs_touched Example.scanned
             = (Ok tt, st')
           ∧ LiveServer.should_reload st' = true
           ∧ LiveServer.file_mtimes st' !! "/docs/index.html" = Some 20.
Proof.
  assert (watched_file_at Example.root (tree Example.fs_touched)
            "/docs/index.html") as Hat.
  { apply (watched_here Example.root _ _ "index.html").
    - apply elem_of_cons. by left.
    - reflexivity. }
  split; [exact Hat|].
  apply (C2_newer_file_sets_signal Example.root Example.fs_touched
           Example.scanned "/docs/index.html" 10 20).
  - exact Hat.
  - reflexivity.
  - reflexivity.
  - lia.
Defined.



(** C9: frame conditions of the boolean-flag variant: a detector cycle
    completes and never lowers the reload signal; the only step that takes
    the signal from set to clear is a GET of the reload-check endpoint; no
    GET, the poll included, changes the file snapshot. *)
Theorem C9_signal_and_snapshot_frames :
  (∀ directory fs (st : LiveServer.state),
     ∃ st', LiveServer.cycle directory fs st = (Ok tt, st')
       ∧ (LiveServer.should_reload st = true →
          LiveServer.should_reload st' = true))
  ∧ (∀ op (st : LiveServer.state),
       LiveServer.should_reload st = true →
       LiveServer.should_reload (LiveServerSteps.perform op st) = false →
       ∃ e, op = LiveServerSteps.Request e LiveServer.reload_check_path)
  ∧ (∀ e path (st : LiveServer.state),
       LiveServer.file_mtimes
         (LiveServerSteps.perform (LiveServerSteps.Request e path) st)
       = LiveServer.file_mtimes st).
Proof.
  split; [|split].
  - intros directory fs st. eexists. split; [apply cycle_run|].
    simpl. apply run_checks_flag_mono.
  - intros [directory fs|e path] st Hset Hclear.
    + cbn [LiveServerSteps.perform] in Hclear. rewrite cycle_run in Hclear.
      change (LiveServer.should_reload
                (LiveServerSummary.scan_effect directory fs st) = false)
        in Hclear.
      unfold LiveServerSummary.scan_effect in Hclear.
      rewrite run_checks_flag_mono in Hclear by done. discriminate.
    + destruct (decide (path = LiveServer.reload_check_path)) as [->|Hne];
        [by exists e|].
      destruct (do_GET_other e path st Hne) as (r & st' & Hrun & Hflag & _).
      simpl in Hclear. rewrite Hrun in Hclear. simpl in Hclear. congruence.
  - intros e path st.
    destruct (decide (path = LiveServer.reload_check_path)) as [->|Hne].
    + simpl. rewrite do_GET_check. simpl.
      by destruct (LiveServer.should_reload st).
    + destruct (do_GET_other e path st Hne) as (r & st' & Hrun & _ & Hsnap).
      simpl. by rewrite Hrun.
Qed.

(* ------------------------------------------------------------------ *)
(** ** Injection of the polling script *)

Section Injection.

Lemma body_close_bytes_no_self_overlap : no_self_overlap body_close_bytes.
Proof.
  unfold no_self_overlap. vm_compute body_close_bytes.
  apply (bool_decide_unpack _). by vm_compute.
Qed.

Lemma body_close_str_no_self_overlap : no_self_overlap body_close_str.
Proof.
  unfold no_self_overlap. vm_compute body_close_str.
  apply (bool_decide_unpack _). by vm_compute.
Qed.

Lemma live_reload_script_split :
  LiveServer.reload_script = LiveServer.polling_script ++ body_close_bytes.
Proof. by vm_compute. Qed.

Lemma contains_occurrences {A} `{EqDecision A} (old s : list A) :
  contains old s = negb (occurrences old s =? 0)%nat.
Proof.
  destruct (contains old s) eqn:Hc.
  - destruct (occurrences old s) eqn:Ho; [|done].
    apply occurrences_absent in Ho. congruence.
  - apply occurrences_absent in Hc. by rewrite Hc.
Qed.

(** The injection of live-server.py, piece by piece. *)
Lemma live_inject_pieces content :
  ∃ pieces,
    length pieces = S (occurrences body_close_bytes content)
    ∧ Forall (free_of body_close_bytes) pieces
    ∧ content = join body_close_bytes pieces
    ∧ LiveServer.inject content
      = join (LiveServer.polling_script ++ body_close_bytes) pieces.
Proof.
  destruct (split_at_occurrences body_close_bytes content
              body_close_bytes_no_self_overlap)
    as (pieces & Hjoin & Hfree & Hlen).
  exists pieces. split; [done|]. split; [done|]. split; [done|].
  unfold LiveServer.inject. rewrite <- live_reload_script_split.
  destruct (contains body_close_bytes content) eqn:Hc.
  - rewrite Hjoin at 1.
    by apply replace_join, Hfree; apply body_close_bytes_no_self_overlap.
  - apply occurrences_absent in Hc. rewrite Hc in Hlen.
    destruct pieces as [|p [|q pieces]]; simplify_eq/=. done.
Qed.

(** The injection of preview-docs.py and serve-docs.py, for any script. *)
Lemma str_inject_pieces script content :
  ∃ pieces,
    length pieces = S (occurrences body_close_str content)
    ∧ Forall (free_of body_close_str) pieces
    ∧ content = join body_close_str pieces
    ∧ replace body_close_str (script ++ body_close_str) content
      = join (script ++ body_close_str) pieces.
Proof.
  destruct (split_at_occurrences body_close_str content
              body_close_str_no_self_overlap)
    as (pieces & Hjoin & Hfree & Hlen).
  exists pieces. split; [done|]. split; [done|]. split; [done|].
  rewrite Hjoin at 1.
  by apply replace_join, Hfree; apply body_close_str_no_self_overlap.
Qed.
End Injection.

Section InjectionLengths.

Lemma live_polling_script_shape :
  ∃ q, LiveServer.polling_script = "010"%byte :: q
       ∧ free_of body_close_bytes ("010"%byte :: q)
       ∧ "010"%byte ∉ body_close_bytes.
Proof.
  eexists. split; [by vm_compute|]. split; [by vm_compute|].
  apply (bool_decide_unpack _). by vm_compute.
Qed.

Lemma preview_reload_script_shape :
  ∃ q, PreviewDocs.reload_script = 10%N :: q
       ∧ free_of body_close_str (10%N :: q)
       ∧ 10%N ∉ body_close_str.
Proof.
  eexists. split; [by vm_compute|]. split; [by vm_compute|].
  apply (bool_decide_unpack _). by vm_compute.
Qed.

Lemma preview_reload_script_encoding :
  ∃ encoded, Text.utf8_encode PreviewDocs.reload_script = Some encoded
             ∧ length encoded = length PreviewDocs.reload_script.
Proof. eexists. split; by vm_compute. Qed.

Lemma body_close_str_encoding :
  Text.utf8_encode body_close_str = Some body_close_bytes.
Proof. by vm_compute. Qed.

(** One tag in, one tag out, and the script's length more. *)
Lemma live_inject_one_tag content :
  occurrences body_close_bytes content = 1%nat →
  length (LiveServer.inject content)
  = (length content + length LiveServer.polling_script)%nat
  ∧ occurrences body_close_bytes (LiveServer.inject content) = 1%nat.
Proof.
  intros Hone.
  destruct (live_inject_pieces content) as (pieces & Hlen & Hfree & Hc & Hi).
  rewrite Hone in Hlen.
  destruct pieces as [|p0 [|p1 [|? ?]]]; try (simpl in Hlen; lia).
  apply Forall_cons in Hfree as [H0 [H1 _]%Forall_cons].
  rewrite Hi, Hc, !join_two.
  split.
  - rewrite !length_app. lia.
  - destruct live_polling_script_shape as (q & -> & Hq & Hx).
    rewrite <- (app_assoc _ body_close_bytes), (app_assoc p0).
    rewrite occurrences_piece.
    + apply occurrences_absent in H1. by rewrite H1.
    + apply body_close_bytes_no_self_overlap.
    + by apply free_of_app.
Qed.

Lemma preview_inject_one_tag content encoded :
  occurrences body_close_str content = 1%nat →
  Text.utf8_encode content = Some encoded →
  ∃ encoded',
    Text.utf8_encode (PreviewDocs.inject content) = Some encoded'
    ∧ length encoded'
      = (length encoded + length PreviewDocs.reload_script)%nat
    ∧ occurrences body_close_str (PreviewDocs.inject content) = 1%nat.
Proof.
  intros Hone Henc. unfold PreviewDocs.inject.
  destruct (str_inject_pieces PreviewDocs.reload_script content)
    as (pieces & Hlen & Hfree & Hc & Hi).
  rewrite Hone in Hlen.
  destruct pieces as [|p0 [|p1 [|? ?]]]; try (simpl in Hlen; lia).
  apply Forall_cons in Hfree as [H0 [H1 _]%Forall_cons].
  rewrite Hi. rewrite Hc, join_two in Henc. rewrite join_two.
  apply utf8_encode_app_inv in Henc as (b0 & brest & Hb0 & Hrest & ->).
  apply utf8_encode_app_inv in Hrest as (bt & b1 & Hbt & Hb1 & ->).
  destruct preview_reload_script_encoding as (bs & Hbs & Hbslen).
  exists (b0 ++ (bs ++ bt) ++ b1). split; [|split].
  - apply utf8_encode_app; [done|]. apply utf8_encode_app; [|done].
    by apply utf8_encode_app.
  - rewrite !length_app. lia.
  - destruct preview_reload_script_shape as (q & -> & Hq & Hx).
    rewrite <- (app_assoc _ body_close_str), (app_assoc p0).
    rewrite occurrences_piece.
    + apply occurrences_absent in H1. by rewrite H1.
    + apply body_close_str_no_self_overlap.
    + by apply free_of_app.
Qed.
End InjectionLengths.

(** C10: the injection replaces every occurrence of the closing body tag:
    the content is its tag-free stretches joined by the tag, one stretch
    more than there are tags, and the injected content is the same
    stretches joined by the polling script followed by the tag.  For
    live-server and preview-docs, with the served body. *)
Theorem C10_script_before_every_tag :
  (∀ content : list byte,
     ∃ pieces,
       length pieces = S (occurrences body_close_bytes content)
       ∧ Forall (free_of body_close_bytes) pieces
       ∧ content = join body_close_bytes pieces
       ∧ LiveServer.inject content
         = join (LiveServer.polling_script ++ body_close_bytes) pieces)
  ∧ (∀ content : list N,
       ∃ pieces,
         length pieces = S (occurrences body_close_str content)
         ∧ Forall (free_of body_close_str) pieces
         ∧ content = join body_close_str pieces
         ∧ PreviewDocs.inject content
           = join (PreviewDocs.reload_script ++ body_close_str) pieces)
  ∧ (∀ e path (st : LiveServer.state) content,
       html_request path = true →
       LiveServer.disk e
         !! LiveServer.translate_path e
              (if String.eqb path "/" then "/index.html" else path)
       = Some content →
       ∃ r, LiveServer.do_GET e path st = (Ok (Served r), st)
            ∧ body r = LiveServer.inject content)
  ∧ (∀ e path (st : PreviewDocs.state) bs content encoded,
       html_request path = true →
       PreviewDocs.is_html_file e (PreviewDocs.relative path) = true →
       PreviewDocs.docs e !! PreviewDocs.relative path = Some bs →
       Text.read_text bs = Some content →
       Text.utf8_encode (PreviewDocs.inject content) = Some encoded →
       ∃ r, PreviewDocs.do_GET e path st = (Ok (Served r), st)
            ∧ body r = encoded).
Proof.
  split; [exact live_inject_pieces|].
  split; [exact (str_inject_pieces PreviewDocs.reload_script)|].
  split.
  - intros e path st content Hh Hdisk. eexists.
    split; [by apply do_GET_html|done].
  - intros e path st bs content encoded Hh Hfile Hdocs Hread Henc. eexists.
    split; [by eapply preview_do_GET_html|done].
Qed.

(** C10 on a page with two closing body tags. *)
Example C10_two_tags :
  LiveServer.inject (Py.encode_ascii "<body>a</body></body>")
  = Py.encode_ascii "<body>a" ++ LiveServer.polling_script
    ++ body_close_bytes ++ LiveServer.polling_script ++ body_close_bytes.
Proof. by vm_compute. Qed.

(** C4 (length only): on content with exactly one closing body tag the
    injected content is longer by exactly the length of the polling script
    (in bytes, for preview-docs after encoding), and it again contains
    exactly one closing body tag, so that injecting a second time adds the
    script a second time. *)
Theorem C4_injection_adds_script_length :
  (∀ content : list byte,
     occurrences body_close_bytes content = 1%nat →
     length (LiveServer.inject content)
     = (length content + length LiveServer.polling_script)%nat
     ∧ occurrences body_close_bytes (LiveServer.inject content) = 1%nat
     ∧ length (LiveServer.inject (LiveServer.inject content))
       = (length content + 2 * length LiveServer.polling_script)%nat)
  ∧ (∀ (content : list N) encoded,
       occurrences body_close_str content = 1%nat →
       Text.utf8_encode content = Some encoded →
       ∃ encoded',
         Text.utf8_encode (PreviewDocs.inject content) = Some encoded'
         ∧ length encoded'
           = (length encoded + length PreviewDocs.reload_script)%nat
         ∧ occurrences body_close_str (PreviewDocs.inject content) = 1%nat).
Proof.
  split.
  - intros content Hone.
    destruct (live_inject_one_tag content Hone) as [Hlen Hone'].
    split; [done|]. split; [done|].
    destruct (live_inject_one_tag _ Hone') as [Hlen' _]. lia.
  - intros content encoded. apply preview_inject_one_tag.
Qed.

(** C4: the injection is not idempotent.  On a page with
    exactly one closing body tag, injecting twice differs from injecting
    once. *)
Lemma C4_injection_not_idempotent :
  occurrences body_close_bytes ExamplePages.one_tag = 1%nat
  ∧ LiveServer.inject (LiveServer.inject ExamplePages.one_tag)
    ≠ LiveServer.inject ExamplePages.one_tag.
Proof.
  split; [by vm_compute|].
  intros Heq. apply (f_equal length) in Heq. vm_compute in Heq.
  discriminate.
Qed.

(* ------------------------------------------------------------------ *)
(** ** Served bytes and headers *)

(** C5: live-server serves an HTML file without a closing body tag byte
    for byte; preview-docs and serve-docs do not: they read the file in
    text mode, so the page ["<p>hi</p>\r\n"] is served as
    ["<p>hi</p>\n"]. *)
Theorem C5_bytes_without_closing_tag :
  (∀ e path (st : LiveServer.state) content,
     html_request path = true →
     LiveServer.disk e
       !! LiveServer.translate_path e
            (if String.eqb path "/" then "/index.html" else path)
     = Some content →
     contains body_close_bytes content = false →
     ∃ r, LiveServer.do_GET e path st = (Ok (Served r), st)
          ∧ body r = content)
  ∧ contains body_close_bytes ExamplePages.crlf_page = false
  ∧ (∃ r, PreviewDocs.do_GET ExamplePages.preview_env "/a.html"
            PreviewDocs.initial = (Ok (Served r), PreviewDocs.initial)
          ∧ body r = ExamplePages.lf_page
          ∧ body r ≠ ExamplePages.crlf_page)
  ∧ (∃ r, ServeDocs.do_GET ExamplePages.serve_env "/a.html"
            ExamplePages.serve_state = (Ok (Served r), ExamplePages.serve_state)
          ∧ body r = ExamplePages.lf_page
          ∧ body r ≠ ExamplePages.crlf_page).
Proof.
  split; [|split; [|split]].
  - intros e path st content Hh Hdisk Habsent. eexists.
    split; [by apply do_GET_html|]. simpl.
    unfold LiveServer.inject. by rewrite Habsent.
  - by vm_compute.
  - eexists. split; [by vm_compute|]. split; [by vm_compute|].
    intros Heq. apply (f_equal length) in Heq. vm_compute in Heq.
    discriminate.
  - eexists. split; [by vm_compute|]. split; [by vm_compute|].
    intros Heq. apply (f_equal length) in Heq. vm_compute in Heq.
    discriminate.
Qed.

Lemma C5_bytes_without_closing_tag_witness :
  ∃ r, LiveServer.do_GET ExamplePages.live_env "/a.html" LiveServer.initial
       = (Ok (Served r), LiveServer.initial)
       ∧ body r = ExamplePages.crlf_page.
Proof.
  apply (proj1 C5_bytes_without_closing_tag ExamplePages.live_env "/a.html"
           LiveServer.initial ExamplePages.crlf_page).
  - reflexivity.
  - reflexivity.
  - by vm_compute.
Defined.

Section ContentLength.

Lemma live_content_length e path st r st' :
  html_request path = true →
  LiveServer.do_GET e path st = (Ok (Served r), st') →
  header_value "Content-Length" (headers r)
  = Some (Py.str_nat (length (body r))).
Proof.
  intros Hh. unfold LiveServer.do_GET.
  rewrite (html_request_not_check _ Hh).
  rewrite Hh.
  unfold try_except, mbind, M_bind, bind, LiveServer.read_bytes.
  destruct (LiveServer.disk e !! _) as [content|]; simpl; [|done].
  by intros [= <- _].
Qed.

Lemma preview_content_length e path st r st' :
  html_request path = true →
  PreviewDocs.do_GET e path st = (Ok (Served r), st') →
  header_value "Content-Length" (headers r)
  = Some (Py.str_nat (length (body r))).
Proof.
  intros Hh. unfold PreviewDocs.do_GET.
  rewrite (html_request_not_reload _ Hh).
  rewrite Hh. simpl.
  destruct (PreviewDocs.is_html_file e _); [|done].
  unfold mbind, M_bind, bind, PreviewDocs.read_text, PreviewDocs.encode.
  destruct (PreviewDocs.docs e !! _) as [bs|]; [|done].
  destruct (Text.read_text bs) as [content|]; [|done]. simpl.
  destruct (Text.utf8_encode _) as [encoded|]; [|done].
  by intros [= <- _].
Qed.

Lemma serve_no_content_length e path st r st' :
  ServeDocs.do_GET e path st = (Ok (Served r), st') →
  header_value "Content-Length" (headers r) = None.
Proof.
  intros Hrun. by rewrite (serve_do_GET_headers _ _ _ _ _ Hrun).
Qed.
End ContentLength.

(** C6 (by variant): every HTML response of live-server and of
    preview-docs carries a Content-Length header equal to the length of the
    body written; serve-docs sends no Content-Length header at all. *)
Theorem C6_content_length_by_variant :
  (∀ e path (st : LiveServer.state) r st',
     html_request path = true →
     LiveServer.do_GET e path st = (Ok (Served r), st') →
     header_value "Content-Length" (headers r)
     = Some (Py.str_nat (length (body r))))
  ∧ (∀ e path (st : PreviewDocs.state) r st',
       html_request path = true →
       PreviewDocs.do_GET e path st = (Ok (Served r), st') →
       header_value "Content-Length" (headers r)
       = Some (Py.str_nat (length (body r))))
  ∧ (∀ e path (st : ServeDocs.state) r st',
       ServeDocs.do_GET e path st = (Ok (Served r), st') →
       header_value "Content-Length" (headers r) = None).
Proof.
  split; [exact live_content_length|].
  split; [exact preview_content_length|exact serve_no_content_length].
Qed.

(** C6 does not extend to serve-docs: the response for [/], into which
    the script is injected, has no Content-Length header. *)
Lemma C6_serve_docs_omits_content_length :
  ∃ r, ServeDocs.do_GET ExamplePages.serve_env "/" ExamplePages.serve_state
       = (Ok (Served r), ExamplePages.serve_state)
       ∧ contains (Text.str "<script>") (Byte.to_N <$> body r) = true
       ∧ header_value "Content-Length" (headers r) = None.
Proof. eexists. split; [by vm_compute|]. split; by vm_compute. Qed.

Lemma C6_content_length_by_variant_witness :
  ∃ r, LiveServer.do_GET ExamplePages.live_env "/" LiveServer.initial
       = (Ok (Served r), LiveServer.initial)
       ∧ header_value "Content-Length" (headers r) = Some "453".
Proof.
  eexists. split; [by vm_compute|].
  refine (eq_trans
            (proj1 C6_content_length_by_variant ExamplePages.live_env "/"
               LiveServer.initial _ LiveServer.initial eq_refl eq_refl) _).
  by vm_compute.
Defined.

(* ------------------------------------------------------------------ *)
(** ** Errors during detection *)

Section DetectorErrors.

Lemma live_check_file_gone fs filepath (st : LiveServer.state) :
  mtimes fs !! filepath = None →
  LiveServer.check_file fs filepath st = (Ok tt, st).
Proof.
  intros Hgone. rewrite check_file_run.
  unfold LiveServerSummary.check_file_effect. by rewrite Hgone.
Qed.

Lemma live_guarded_catches (loop_body : M LiveServer.state unit)
    st exc st1 :
  loop_body st = (Raise exc, st1) → is_Exception exc = true →
  LiveServer.guarded loop_body st
  = (Ok tt, LiveServer.emit (Sleep 1000)
              (LiveServer.emit (Print (WatchError exc)) st1)).
Proof.
  intros Hbody Hexc. unfold LiveServer.guarded, try_except.
  by rewrite Hbody, Hexc.
Qed.

Lemma live_watch_files_total directory turns (st : LiveServer.state) :
  ∃ st', LiveServer.watch_files directory turns st = (Ok tt, st').
Proof.
  unfold LiveServer.watch_files, mbind, M_bind, bind. simpl.
  generalize (LiveServer.emit (Print (Watching directory)) st) as st0.
  induction turns as [|fs turns IH]; intros st0; [by eexists|].
  simpl. unfold mbind, M_bind, bind. rewrite cycle_run. apply IH.
Qed.
End DetectorErrors.

(** C7 (by variant): live-server: a file that cannot be
    stat-ed is skipped without a trace and the cycle goes on, recording
    every other reachable file; an [Exception] that escapes the loop body
    is reported and followed by a one-second sleep; the loop never raises.
    serve-docs: there is no handler per file; a file that cannot be
    stat-ed, wherever it stands among the files the walk examines, ends the
    scan of that cycle: the cycle completes in the state reached after the
    files before it and the files after it are not examined; the loop never
    raises.
    preview-docs: [get_last_modified_time] has no handler and raises. *)
Theorem C7_detector_errors_by_variant :
  (∀ fs filepath (st : LiveServer.state),
     mtimes fs !! filepath = None →
     LiveServer.check_file fs filepath st = (Ok tt, st))
  ∧ (∀ directory fs (st : LiveServer.state),
       ∃ st', LiveServer.cycle directory fs st = (Ok tt, st')
         ∧ ∀ filepath mtime,
             watched_file_at directory (tree fs) filepath →
             mtimes fs !! filepath = Some mtime →
             LiveServer.file_mtimes st' !! filepath = Some mtime)
  ∧ (∀ (loop_body : M LiveServer.state unit) st exc st1,
       loop_body st = (Raise exc, st1) → is_Exception exc = true →
       LiveServer.guarded loop_body st
       = (Ok tt, LiveServer.emit (Sleep 1000)
                   (LiveServer.emit (Print (WatchError exc)) st1)))
  ∧ (∀ directory turns (st : LiveServer.state),
       ∃ st', LiveServer.watch_files directory turns st = (Ok tt, st'))
  ∧ (∀ docs_dir listing now (st : ServeDocs.state) pre file_path post st1,
       ServeDocsSummary.candidates docs_dir listing
       = pre ++ file_path :: post →
       for_each (ServeDocs.check_file docs_dir now) pre
         (ServeDocs.emit (Sleep 1000) st) = (Ok tt, st1) →
       ServeDocs.disk_mtimes st1 !! file_path = None →
       ServeDocs.cycle docs_dir listing now st = (Ok tt, st1))
  ∧ (∀ docs_dir turns (st : ServeDocs.state),
       ∃ st', ServeDocs.watch_files docs_dir turns st = (Ok tt, st'))
  ∧ (∀ e file_path (st : PreviewDocs.state),
       file_path ∈ PreviewDocsSummary.candidates e →
       mtimes (PreviewDocs.fs e) !! file_path = None →
       PreviewDocs.get_last_modified_time e st = (Raise (OSError ENOENT), st)).
Proof.
  split; [exact live_check_file_gone|].
  split.
  { intros directory fs st. eexists. split; [apply cycle_run|].
    intros filepath mtime Hat Hm. apply candidates_spec in Hat.
    simpl. by apply run_checks_recorded. }
  split; [exact live_guarded_catches|].
  split; [exact live_watch_files_total|].
  split; [exact serve_cycle_abandoned_at|].
  split; [exact serve_watch_files_total|].
  exact get_last_modified_time_raises.
Qed.

(** C7 does not extend beyond live-server.  In serve-docs the scan
    stops at [gone.md]: [new.md], newer than the watermark, is not looked
    at in this cycle (it is when [gone.md] is not listed).  With [gone.md]
    in the middle of the listing, or first in a subdirectory, [new.md]
    before it is taken into account (watermark 150, [index.html] touched)
    and [late.md] after it, newer still, is not.  In preview-docs the
    first listing makes [get_last_modified_time] raise. *)
Lemma C7_error_ends_scan_or_propagates :
  (ServeDocs.cycle "/docs" ExampleVanished.listing 200
     ExampleVanished.serve_state).1 = Ok tt
  ∧ ServeDocs.last_check_time
      (ServeDocs.cycle "/docs" ExampleVanished.listing 200
         ExampleVanished.serve_state).2 = 100
  ∧ ServeDocs.last_check_time
      (ServeDocs.cycle "/docs" ExampleVanished.listing_without 200
         ExampleVanished.serve_state).2 = 150
  ∧ ServeDocs.cycle "/docs" ExampleAbandoned.listing 200
      ExampleAbandoned.serve_state = (Ok tt, ExampleAbandoned.after_new)
  ∧ (ServeDocs.cycle "/docs" ExampleAbandoned.nested 200
       ExampleAbandoned.nested_state).1 = Ok tt
  ∧ ServeDocs.last_check_time
      (ServeDocs.cycle "/docs" ExampleAbandoned.nested 200
         ExampleAbandoned.nested_state).2 = 150
  ∧ (PreviewDocs.get_last_modified_time ExampleVanished.preview_env
       PreviewDocs.initial).1 = Raise (OSError ENOENT).
Proof. repeat split; by vm_compute. Qed.

Lemma C7_detector_errors_by_variant_witness :
  (∃ st', LiveServer.cycle "/docs" ExampleVanished.live_fs LiveServer.initial
          = (Ok tt, st')
          ∧ LiveServer.file_mtimes st' !! "/docs/new.md" = Some 150)
  ∧ LiveServer.guarded ExampleVanished.failing_body LiveServer.initial
    = (Ok tt, LiveServer.emit (Sleep 1000)
                (LiveServer.emit (Print (WatchError ValueError))
                   LiveServer.initial))
  ∧ ServeDocs.cycle "/docs" ExampleAbandoned.listing 200
      ExampleAbandoned.serve_state = (Ok tt, ExampleAbandoned.after_new).
Proof.
  split; [|split].
  - destruct (proj1 (proj2 C7_detector_errors_by_variant) "/docs"
                ExampleVanished.live_fs LiveServer.initial)
      as (st' & Hrun & Hrec).
    exists st'. split; [exact Hrun|].
    apply Hrec; [|reflexivity].
    apply (watched_here "/docs" _ _ "new.md"); [|reflexivity].
    apply elem_of_cons. right. apply elem_of_cons. by left.
  - apply (proj1 (proj2 (proj2 C7_detector_errors_by_variant))
             ExampleVanished.failing_body LiveServer.initial ValueError
             LiveServer.initial); reflexivity.
  - apply (proj1 (proj2 (proj2 (proj2 (proj2 C7_detector_errors_by_variant))))
             "/docs" ExampleAbandoned.listing 200 ExampleAbandoned.serve_state
             ["/docs/new.md"] "/docs/gone.md" ["/docs/late.md"]);
      by vm_compute.
Defined.

(* ------------------------------------------------------------------ *)
(** ** Start-up *)

(** C8: a start-up that finds the documentation directory missing, or
    whose bind fails, ends with exit status 1 in all three scripts; when
    the directory is missing each script has printed that it is. *)
Theorem C8_startup_failure_exits_1 (h : host)
    (live : LiveServer.state) (preview : PreviewDocs.state)
    (serve : ServeDocs.state) :
  docs_exists h = false ∨ is_Some (bind_errno h) →
  ∃ live' preview' serve',
    run_script (LiveServer.main h) live = (Exited 1, live')
    ∧ run_script (PreviewDocs.script h) preview = (Exited 1, preview')
    ∧ run_script (ServeDocs.main h) serve = (Exited 1, serve')
    ∧ (docs_exists h = false →
       Print DocsNotFound ∈ LiveServer.console live'
       ∧ Print DocsNotFound ∈ PreviewDocs.console preview'
       ∧ Print DocsNotFound ∈ ServeDocs.console serve').
Proof.
  destruct h as [exists_ errno busy]. simpl.
  intros Hfail. destruct exists_.
  - destruct Hfail as [|[code Hcode]]; [done|]. subst errno.
    unfold run_script, LiveServer.main, PreviewDocs.script, PreviewDocs.main,
      PreviewDocs.kill_existing_server, ServeDocs.main, ServeDocs.kill_port,
      try_except, bind_socket, when, mbind, M_bind, bind. simpl.
    destruct busy; destruct (code =? EADDRINUSE); simpl;
      do 3 eexists; (split; [reflexivity|]);
      (split; [reflexivity|]); (split; [reflexivity|]);
      intros Hmissing; discriminate Hmissing.
  - unfold run_script, LiveServer.main, PreviewDocs.script, ServeDocs.main,
      ServeDocs.kill_port, when, mbind, M_bind, bind. simpl.
    do 3 eexists. split; [reflexivity|]. split; [reflexivity|].
    split; [reflexivity|]. intros _. clear Hfail. simpl.
    rewrite !elem_of_app, !elem_of_cons. naive_solver.
Qed.

Lemma C8_startup_failure_exits_1_witness :
  (∃ live', run_script (LiveServer.main ExampleVanished.missing_docs)
              LiveServer.initial = (Exited 1, live')
            ∧ Print DocsNotFound ∈ LiveServer.console live')
  ∧ (∃ serve', run_script (ServeDocs.main ExampleVanished.port_taken)
                 ExamplePages.serve_state = (Exited 1, serve')).
Proof.
  split.
  - destruct (C8_startup_failure_exits_1 ExampleVanished.missing_docs
                LiveServer.initial PreviewDocs.initial ExamplePages.serve_state)
      as (live' & preview' & serve' & Hlive & Hpreview & Hserve & Hprinted).
    + left. reflexivity.
    + exists live'. split; [exact Hlive|]. by apply Hprinted.
  - destruct (C8_startup_failure_exits_1 ExampleVanished.port_taken
                LiveServer.initial PreviewDocs.initial ExamplePages.serve_state)
      as (live' & preview' & serve' & Hlive & Hpreview & Hserve & Hprinted).
    + right. by eexists.
    + by exists serve'.
Defined.

(* ------------------------------------------------------------------ *)
(** ** The theorems above, on the example trees *)


Lemma C4_injection_adds_script_length_witness :
  length (LiveServer.inject ExamplePages.one_tag)
  = (length ExamplePages.one_tag + length LiveServer.polling_script)%nat
  ∧ occurrences body_close_bytes (LiveServer.inject ExamplePages.one_tag)
    = 1%nat
  ∧ length (LiveServer.inject (LiveServer.inject ExamplePages.one_tag))
    = (length ExamplePages.one_tag
       + 2 * length LiveServer.polling_script)%nat.
Proof.
  apply (proj1 C4_injection_adds_script_length ExamplePages.one_tag).
  by vm_compute.
Defined.

Lemma C9_signal_and_snapshot_frames_witness :
  ∃ st', LiveServer.cycle Example.root Example.fs_before
           (LiveServer.set_should_reload true Example.scanned) = (Ok tt, st')
         ∧ LiveServer.should_reload st' = true.
Proof.
  destruct (proj1 C9_signal_and_snapshot_frames Example.root Example.fs_before
              (LiveServer.set_should_reload true Example.scanned))
    as (st' & Hrun & Hkept).
  exists st'. split; [exact Hrun|]. apply Hkept. reflexivity.
Defined.

Lemma C10_script_before_every_tag_witness :
  ∃ r, LiveServer.do_GET ExamplePages.live_env "/" LiveServer.initial
       = (Ok (Served r), LiveServer.initial)
       ∧ body r = LiveServer.inject ExamplePages.one_tag.
Proof.
  apply (proj1 (proj2 (proj2 C10_script_before_every_tag))
           ExamplePages.live_env "/" LiveServer.initial ExamplePages.one_tag);
    reflexivity.
Defined.

(** The live-reload round trip on the example tree: a first scan raises
    nothing and a poll answers false; [index.html] is touched, the next
    scan raises the signal, the next poll answers true and clears it, and
    the poll after that answers false again. *)
Example live_reload_round_trip :
  let poll := LiveServer.do_GET Example.live_env LiveServer.reload_check_path in
  let st1 := LiveServerSteps.perform
               (LiveServerSteps.Detect Example.root Example.fs_before)
               LiveServer.initial in
  let st2 := LiveServerSteps.perform
               (LiveServerSteps.Detect Example.root Example.fs_touched)
               (poll st1).2 in
  LiveServer.should_reload st1 = false
  ∧ Example.answer (poll st1)
    = "{" +:+ Py.dq +:+ "reload" +:+ Py.dq +:+ ": false}"
  ∧ LiveServer.should_reload st2 = true
  ∧ Example.answer (poll st2)
    = "{" +:+ Py.dq +:+ "reload" +:+ Py.dq +:+ ": true}"
  ∧ LiveServer.should_reload (poll st2).2 = false
  ∧ Example.answer (poll (poll st2).2)
    = "{" +:+ Py.dq +:+ "reload" +:+ Py.dq +:+ ": false}".
Proof. repeat split; by vm_compute. Qed.
